(** * gocharm: the charm build pipeline of cmd/gocharm/gocharm.go

    A shallow embedding of the functions of [cmd/gocharm/gocharm.go] and of
    the parts of the Go standard library they call, followed by the theorems
    that settle the properties stated about them.

    Conventions of the embedding:
    - Go strings are byte strings: [string].
    - Go maps are [gmap string V]; a slice is a [list].
    - A function with side effects is a computation [M A] over a [World]
      (file system, process environment, trace of the commands started).
    - Code outside the repository (the toolchain, git, godep, the YAML and
      charm libraries) is a member of the class [Host].
    - Logging under [*verbose] writes to the standard error stream only and is
      left out. *)

From Stdlib Require Import ZArith Ascii.
From stdpp Require Import base strings gmap list pretty.

Local Open Scope Z_scope.

(** ** Characters that a Rocq string literal cannot hold directly *)

Definition nl : string := String "010"%char EmptyString.
Definition tab : string := String "009"%char EmptyString.
Definition dq : string := String "034"%char EmptyString.

(** ** Package strings *)

Module Strings.

(** [strings.HasPrefix s prefix]. *)
Fixpoint HasPrefix (s prefix : string) {struct prefix} : bool :=
  match prefix with
  | EmptyString => true
  | String a prefix' =>
      match s with
      | EmptyString => false
      | String b s' => if Ascii.eqb a b then HasPrefix s' prefix' else false
      end
  end.

(** [strings.Index s substr]: the index of the first instance of [substr]
    in [s], or -1. *)
Fixpoint Index (s substr : string) : Z :=
  if HasPrefix s substr then 0
  else match s with
       | EmptyString => -1
       | String _ s' =>
           let i := Index s' substr in
           if i =? -1 then -1 else i + 1
       end.


(** The slice expression [s[lo:hi]]. *)
Definition Slice (s : string) (lo hi : Z) : string :=
  String.substring (Z.to_nat lo) (Z.to_nat (hi - lo)) s.

(** [s[lo:]]. *)
Definition SliceFrom (s : string) (lo : Z) : string :=
  Slice s lo (Z.of_nat (String.length s)).

(** [strings.Join elems sep]. *)
Fixpoint Join (elems : list string) (sep : string) : string :=
  match elems with
  | [] => ""
  | [e] => e
  | e :: rest => e +:+ sep +:+ Join rest sep
  end.

(** [strings.Split s sep] for a one-byte separator: the fields of [s]
    between the occurrences of [sep]; [cur] is the field being read. *)
Fixpoint SplitAcc (sep : ascii) (cur : string) (s : string) : list string :=
  match s with
  | EmptyString => [String.rev cur]
  | String c s' =>
      if Ascii.eqb c sep then String.rev cur :: SplitAcc sep EmptyString s'
      else SplitAcc sep (String c cur) s'
  end.

Definition Split (s : string) (sep : ascii) : list string :=
  SplitAcc sep EmptyString s.

End Strings.

(** The bytes of a string. *)
Definition chars (s : string) : list ascii := String.list_ascii_of_string s.

(** ** Package path/filepath (Unix) *)

Module Filepath.

Definition Separator : ascii := "/"%char.
Definition ListSeparator : ascii := ":"%char.

Definition rooted (path : string) : bool := Strings.HasPrefix path "/".

(** One step of [Clean]: [out] is the stack of the elements kept so far,
    the last one first. *)
Definition cleanStep (isRooted : bool) (out : list string) (elem : string)
  : list string :=
  if String.eqb elem "" then out
  else if String.eqb elem "." then out
  else if String.eqb elem ".." then
    match out with
    | [] => if isRooted then [] else [".."]
    | top :: below => if String.eqb top ".." then ".." :: out else below
    end
  else elem :: out.

(** [filepath.Clean]: the shortest path equivalent to [path] by lexical
    processing: repeated separators, [.] elements and inner [..] elements
    go, and [..] elements that begin a rooted path go. *)
Definition Clean (path : string) : string :=
  if String.eqb path "" then "."
  else
    let r := rooted path in
    let out := fold_left (cleanStep r) (Strings.Split path Separator) [] in
    let body := Strings.Join (rev out) "/" in
    if r then "/" +:+ body
    else if String.eqb body "" then "." else body.

(** [filepath.Join]: empty elements are ignored, the rest is joined with
    the separator and cleaned; all elements empty gives the empty string. *)
Fixpoint Join (elem : list string) : string :=
  match elem with
  | [] => ""
  | e :: rest =>
      if String.eqb e "" then Join rest
      else Clean (Strings.Join elem "/")
  end.

(** [path] without its trailing separators. *)
Fixpoint stripTrailingRev (r : string) : string :=
  match r with
  | String c r' => if Ascii.eqb c Separator then stripTrailingRev r' else r
  | EmptyString => EmptyString
  end.

(** The reversed last element of a reversed path. *)
Fixpoint lastElemRev (r : string) : string :=
  match r with
  | String c r' =>
      if Ascii.eqb c Separator then EmptyString else String c (lastElemRev r')
  | EmptyString => EmptyString
  end.

(** [filepath.Base]: the last element of [path]. *)
Definition Base (path : string) : string :=
  if String.eqb path "" then "."
  else
    let r := stripTrailingRev (String.rev path) in
    let b := String.rev (lastElemRev r) in
    if String.eqb b "" then "/" else b.

(** What is left of a reversed path from its first separator on. *)
Fixpoint dropLastElemRev (r : string) : string :=
  match r with
  | String c r' => if Ascii.eqb c Separator then r else dropLastElemRev r'
  | EmptyString => EmptyString
  end.

(** [filepath.Dir]: all but the last element of [path], cleaned. *)
Definition Dir (path : string) : string :=
  Clean (String.rev (dropLastElemRev (String.rev path))).

End Filepath.

(** ** The constants of gocharm.go *)

Definition hookPackage : string := "github.com/juju/gocharm/hook".
Definition autogenMessage : string :=
  "This file is automatically generated. Do not edit.".
Definition godepPath : string := "github.com/tools/godep".

Definition listSep : string := String Filepath.ListSeparator EmptyString.

(** ** Outcomes: a Go function returns, returns an error, or panics *)

(** The errors that reach gocharm.go. *)
Inductive lookPathError :=
  | ErrNotFound                       (* the sentinel exec.ErrNotFound *)
  | ErrLookOther (msg : string).

Inductive error :=
  | ErrNew (msg : string)                       (* errors.New, errors.Newf *)
  | ErrWrap (msg : string) (underlying : error) (* errors.Wrap, errors.Wrapf *)
  | ExecError (name : string) (err : lookPathError)        (* *exec.Error *)
  | ExitError (status : Z)                             (* *exec.ExitError *)
  | PathError (op path msg : string)                     (* *os.PathError *)
  | LibError (msg : string).                 (* an error of yaml or charm *)

Inductive outcome (A : Type) :=
  | Ok (a : A)
  | Err (e : error)
  | Panic (msg : string).
Arguments Ok {A} a.
Arguments Err {A} e.
Arguments Panic {A} msg.

(** ** setenv *)

(** [setenv] sets [entry] in [env]: the first element that starts with the
    key of [entry] and [=] is replaced; with no such element, [entry] is
    appended. *)
Definition setenv (env : list string) (entry : string) : outcome (list string) :=
  let i := Strings.Index entry "=" in
  if i =? -1 then Panic "no = in environment entry"
  else
    let prefix := Strings.Slice entry 0 (i + 1) in
    match list_find (fun e => Is_true (Strings.HasPrefix e prefix)) env with
    | Some (i, _) => Ok (<[i := entry]> env)
    | None => Ok (env ++ [entry])
    end.

(** ** The file system *)

(** A node is a regular file, with its contents and permission bits, or a
    directory. The file system maps clean paths to nodes; the root and the
    working directory exist without an entry. *)
Inductive node :=
  | File (data : string) (perm : N)
  | Directory.

Abbreviation filesystem := (gmap string node).

Definition perm0777 : N := 511.
Definition perm0755 : N := 493.
Definition perm0666 : N := 438.

Module OS.

Definition isRoot (path : string) : bool :=
  String.eqb path "/" || String.eqb path ".".

(** [os.Stat], as far as gocharm.go looks at it: the node at [path]. *)
Definition Stat (f : filesystem) (path : string) : option node :=
  match f !! path with
  | Some n => Some n
  | None => if isRoot path then Some Directory else None
  end.

(** The paths from the outermost directory of [base]/[elems] down to the
    whole path. *)
Fixpoint prefixesFrom (base : string) (elems : list string) : list string :=
  match elems with
  | [] => []
  | e :: rest =>
      let p := if String.eqb base "" then e
               else if String.eqb base "/" then "/" +:+ e
               else base +:+ "/" +:+ e in
      p :: prefixesFrom p rest
  end.

Definition nonEmpty (s : string) : bool := negb (String.eqb s "").

Definition ancestors (path : string) : list string :=
  prefixesFrom (if Filepath.rooted path then "/" else "")
    (List.filter nonEmpty (Strings.Split path Filepath.Separator)).

(** Make each of [dirs] in turn, the outermost first. *)
Fixpoint mkdirEach (dirs : list string) (f : filesystem)
  : option error * filesystem :=
  match dirs with
  | [] => (None, f)
  | d :: rest =>
      match Stat f d with
      | Some Directory => mkdirEach rest f
      | Some (File _ _) => (Some (PathError "mkdir" d "not a directory"), f)
      | None => mkdirEach rest (<[d := Directory]> f)
      end
  end.

(** [os.MkdirAll path perm]: [path] and the parents it lacks become
    directories; an existing directory is left alone; a regular file in
    the way is an error. *)
Definition MkdirAll (path : string) (perm : N) (f : filesystem)
  : option error * filesystem :=
  mkdirEach (ancestors path) f.

(** [ioutil.WriteFile path data perm]: the file is created with [perm] or,
    when it exists, truncated and rewritten under the permission bits it
    has. *)
Definition WriteFile (path data : string) (perm : N) (f : filesystem)
  : option error * filesystem :=
  match Stat f path with
  | Some Directory => (Some (PathError "open" path "is a directory"), f)
  | Some (File _ perm0) => (None, <[path := File data perm0]> f)
  | None =>
      match Stat f (Filepath.Dir path) with
      | Some Directory => (None, <[path := File data perm]> f)
      | _ => (Some (PathError "open" path "no such file or directory"), f)
      end
  end.

(** [os.Open] followed by reading all of the file. *)
Definition ReadFile (path : string) (f : filesystem) : error + string :=
  match Stat f path with
  | Some (File data _) => inr data
  | Some Directory => inl (PathError "read" path "is a directory")
  | None => inl (PathError "open" path "no such file or directory")
  end.

(** [ioutil.ReadDir]: the names in the directory [path] (in the order of
    the map; gocharm.go looks at their number only). *)
Definition ReadDir (path : string) (f : filesystem) : error + list string :=
  match Stat f path with
  | Some Directory =>
      inr (Filepath.Base <$>
             List.filter (fun k => String.eqb (Filepath.Dir k) path
                                   && negb (String.eqb k path))
                         (map_to_list f).*1)
  | Some (File _ _) => inl (PathError "readdirent" path "not a directory")
  | None => inl (PathError "open" path "no such file or directory")
  end.

(** [q] is [path] or lies below it. *)
Definition under (path q : string) : bool :=
  String.eqb q path
  || Strings.HasPrefix q (if String.eqb path "/" then "/" else path +:+ "/").

(** [os.RemoveAll path]: [path] and everything below it goes; a path that
    does not exist is no error. *)
Definition RemoveAll (path : string) (f : filesystem) : filesystem :=
  filter (fun kv => ~ Is_true (under path kv.1)) f.

End OS.

(** ** Processes *)

(** The fields of [exec.Cmd] that gocharm.go sets. An empty [Env] is the nil
    slice: the command inherits the environment of the process. *)
Record Cmd := {
  Path : string;
  Args : list string;
  Env : list string;
  Dir : string
}.

(** ** Package charm *)

Definition RelationRole := string.
Definition RoleProvider : RelationRole := "provider".
Definition RoleRequirer : RelationRole := "requirer".
Definition RolePeer : RelationRole := "peer".

Record Relation := {
  RelName : string;
  Role : RelationRole;
  Interface : string;
  Optional : bool;
  Limit : Z;
  Scope : string
}.

Record Meta := {
  Name : string;
  Summary : string;
  Description : string;
  Subordinate : bool;
  Provides : gmap string Relation;
  Requires : gmap string Relation;
  Peers : gmap string Relation;
  Format : Z;
  OldRevision : Z;
  Categories : list string;
  Series : string
}.

(** A decoded YAML scalar, for the default of an option. *)
Inductive scalar :=
  | SString (s : string)
  | SInt (i : Z)
  | SBool (b : bool).

Record Option_ := {
  OptType : string;
  OptDescription : string;
  OptDefault : option scalar
}.

Record Config := { Options : gmap string Option_ }.

(** What gocharm.go hands to [yaml.Marshal]. *)
Inductive yamlValue :=
  | OfMeta (m : Meta)
  | OfConfig (c : Config).

(** The registration snapshot of the target package. *)
Record CharmInfo := {
  Hooks : list string;
  Relations : gmap string Relation;
  ConfigOptions : gmap string Option_
}.

(** [build.Package], as far as gocharm.go reads it. *)
Record Package := {
  ImportPath : string;
  PkgDir : string
}.

(** ** The world outside gocharm.go *)

Class Host := {
  (** [Run] of [exec.Cmd]: what running the command does to the file system,
      and its error. *)
  run : Cmd -> filesystem -> option error * filesystem;
  (** Modelled from the spec: [registeredCharmInfo] is a function of this
      repository outside gocharm.go. It builds and runs a probe program for
      the package at the given import path, with the given scratch
      directory, and returns the hooks, relations and config options that
      the package registers, or fails. *)
  registeredCharmInfo :
    string -> string -> filesystem -> (error + CharmInfo) * filesystem;
  (** [charm.ReadMeta] on the contents of a metadata descriptor. *)
  ReadMeta : string -> error + Meta;
  (** [charm.ReadConfig] on the contents of a config descriptor. *)
  ReadConfig : string -> error + Config;
  (** [charm.ReadCharmDir]: the error of parsing the bundle, if any. *)
  ReadCharmDir : string -> filesystem -> option error;
  (** [yaml.Marshal]. *)
  Marshal : yamlValue -> error + string;
  (** The [%q] verb of package fmt ([strconv.Quote]). *)
  Quote : string -> string
}.

(** ** Computations *)

Record World := {
  fs : filesystem;
  environ : list string;
  started : list Cmd
}.

(** The world with another file system. *)
Definition withFS (w : World) (f : filesystem) : World :=
  {| fs := f; environ := environ w; started := started w |}.

Definition M (A : Type) : Type := World -> outcome A * World.

Definition ret {A} (a : A) : M A := fun w => (Ok a, w).

Definition bind {A B} (m : M A) (k : A -> M B) : M B :=
  fun w =>
    match m w with
    | (Ok a, w') => k a w'
    | (Err e, w') => (Err e, w')
    | (Panic msg, w') => (Panic msg, w')
    end.

Notation "x <- m ;; k" := (bind m (fun x => k))
  (at level 100, m at next level, right associativity).
Notation "m ;;; k" := (bind m (fun _ => k))
  (at level 100, right associativity).

Definition fail {A} (e : error) : M A := fun w => (Err e, w).

(** A pure call that may return an error or panic. *)
Definition liftOutcome {A} (o : outcome A) : M A := fun w => (o, w).

Definition liftResult {A} (r : error + A) : M A :=
  fun w => (match r with inl e => Err e | inr a => Ok a end, w).

(** A call that changes the file system and returns an error or nil. *)
Definition liftFS (op : filesystem -> option error * filesystem) : M unit :=
  fun w =>
    let '(r, f') := op (fs w) in
    (match r with Some e => Err e | None => Ok tt end, withFS w f').

(** A call that reads the file system. *)
Definition readFS {A} (op : filesystem -> error + A) : M A :=
  fun w => liftResult (op (fs w)) w.

(** [if err := m; err != nil { return wrap(err) }]. *)
Definition onError {A} (wrap : error -> error) (m : M A) : M A :=
  fun w =>
    match m w with
    | (Err e, w') => (Err (wrap e), w')
    | r => r
    end.

(** [errors.Wrap] and [errors.Wrapf] of package errgo. *)
Definition Wrap (e : error) : error := ErrWrap "" e.
Definition Wrapf (msg : string) (e : error) : error := ErrWrap msg e.


(** [defer cleanup] ahead of [body]: [cleanup] runs when [body] is over,
    however it ends, and what [cleanup] returns is dropped. *)
Definition defer {A} (cleanup : World -> World) (body : M A) : M A :=
  fun w => let '(r, w') := body w in (r, cleanup w').

Definition Environ : M (list string) := fun w => (Ok (environ w), w).

(** The element [e] of an environment list sets the variable [key]. *)
Definition startsWith (key : string) : string -> Prop :=
  fun e => Is_true (Strings.HasPrefix e (key +:+ "=")).

(** The value of [key] in an environment list: that of the first element
    that starts with [key] and [=]. *)
Definition lookupEnv (env : list string) (key : string) : option string :=
  match list_find (fun e => Is_true (Strings.HasPrefix e (key +:+ "="))) env with
  | Some (_, e) => Some (Strings.SliceFrom e (Z.of_nat (String.length key) + 1))
  | None => None
  end.

(** [os.Getenv]: the empty string for a variable that is not set. *)
Definition Getenv (key : string) : M string :=
  fun w => (Ok (default "" (lookupEnv (environ w) key)), w).

Definition RemoveAll (path : string) (w : World) : World :=
  withFS w (OS.RemoveAll path (fs w)).

(** Writing each of [files] (path and contents) in turn, up to the first
    error. *)
Fixpoint writeEach (files : list (string * string)) (perm : N) (f : filesystem)
  : option error * filesystem :=
  match files with
  | [] => (None, f)
  | (path, data) :: rest =>
      match OS.WriteFile path data perm f with
      | (None, f') => writeEach rest perm f'
      | (Some e, f') => (Some e, f')
      end
  end.


(** A computation that does not panic. *)
Definition noPanic {A} (m : M A) : Prop :=
  forall w msg, (m w).1 <> Panic msg.


(** ** gocharm.go *)

Record buildCharmParams := {
  pkg : Package;
  charmDir : string;
  tempDir : string;
  source : bool
}.

Definition charmBuilder := buildCharmParams.

(** [runCmd]: the command, not yet started. *)
Definition runCmd (dir : string) (env : list string) (cmd : string)
    (args : list string) : Cmd :=
  {| Path := cmd; Args := cmd :: args; Env := env; Dir := dir |}.

(** [text] with a newline after each line. *)
Fixpoint lines (text : list string) : string :=
  match text with
  | [] => ""
  | l :: rest => l +:+ nl +:+ lines rest
  end.

Record hookStubParams := {
  Source : bool;
  HookName : string;
  GodepPath : string
}.

(** The text that [hookStubTemplate] executes to. *)
Definition hookStubTemplate (p : hookStubParams) : string :=
  lines ["#!/bin/sh"; "set -ex"] +:+
  (if String.eqb (HookName p) "install" then
     lines [
       "";
       "apt-get '--option=Dpkg::Options::=--force-confold'  '--option=Dpkg::options::=--force-unsafe-io' --assume-yes --quiet install golang git mercurial";
       "";
       "if test -e " +:+ dq +:+ "$CHARM_DIR/bin/runhook" +:+ dq +:+ "; then";
       tab +:+ "# the binary has been pre-compiled; no need to compile again.";
       tab +:+ "exit 0";
       "fi";
       "export GOPATH=" +:+ dq +:+ "$CHARM_DIR" +:+ dq;
       "go get " +:+ GodepPath p;
       "";
       dq +:+ "$CHARM_DIR/compile" +:+ dq;
       dq +:+ "$CHARM_DIR/bin/runhook" +:+ dq +:+ " install"
     ]
   else if Source p then
     lines [
       "";
       "if test -e " +:+ dq +:+ "$CHARM_DIR/compile-always" +:+ dq +:+ "; then";
       tab +:+ dq +:+ "$CHARM_DIR/compile" +:+ dq;
       "fi"
     ]
   else "") +:+
  lines [""; "$CHARM_DIR/bin/runhook " +:+ HookName p].

Definition hookStub (b : charmBuilder) (hookName : string) : string :=
  hookStubTemplate
    {| Source := source b; HookName := hookName; GodepPath := godepPath |}.

Definition yamlAutogenComment : string := "# " +:+ autogenMessage +:+ nl.

Definition compileScript : string :=
  lines [
    "#!/bin/sh";
    "set -e";
    "if test -z " +:+ dq +:+ "$CHARM_DIR" +:+ dq +:+ "; then";
    tab +:+ "echo CHARM_DIR not set >&2";
    tab +:+ "exit 2";
    "fi";
    "export PATH=" +:+ dq +:+ "$CHARM_DIR/bin:$PATH" +:+ dq;
    "cd " +:+ dq +:+ "$CHARM_DIR/src/runhook" +:+ dq;
    "export GOPATH=" +:+ dq +:+ "$CHARM_DIR:$(godep path)" +:+ dq;
    "go install"
  ].

(** [isExecNotFound]: the error is an [*exec.Error] whose [Err] is
    [exec.ErrNotFound]. *)
Definition isExecNotFound (err : error) : bool :=
  match err with
  | ExecError _ ErrNotFound => true
  | _ => false
  end.

(** The roles that [writeMeta] files. *)
Definition knownRole (role : RelationRole) : bool :=
  String.eqb role RoleProvider || String.eqb role RoleRequirer
  || String.eqb role RolePeer.

(** The section of the metadata descriptor that holds the relations of
    [role]. *)
Definition sectionOf (role : RelationRole) (meta : Meta) : gmap string Relation :=
  if String.eqb role RoleProvider then Provides meta
  else if String.eqb role RoleRequirer then Requires meta
  else if String.eqb role RolePeer then Peers meta
  else ∅.

(** [meta] with another name, and with its three relation sections
    replaced. *)
Definition withName (meta : Meta) (name : string) : Meta :=
  {| Name := name; Summary := Summary meta; Description := Description meta;
     Subordinate := Subordinate meta; Provides := Provides meta;
     Requires := Requires meta; Peers := Peers meta; Format := Format meta;
     OldRevision := OldRevision meta; Categories := Categories meta;
     Series := Series meta |}.

Definition withRelations (meta : Meta)
    (provides requires peers : gmap string Relation) : Meta :=
  {| Name := Name meta; Summary := Summary meta;
     Description := Description meta; Subordinate := Subordinate meta;
     Provides := provides; Requires := requires; Peers := peers;
     Format := Format meta; OldRevision := OldRevision meta;
     Categories := Categories meta; Series := Series meta |}.

Section Gocharm.
Context `{Host}.

(** [c.Run()]: the command is started, and waited for. *)
Definition Run (c : Cmd) : M unit :=
  fun w =>
    let '(r, f') := run c (fs w) in
    (match r with Some e => Err e | None => Ok tt end,
     {| fs := f'; environ := environ w; started := started w ++ [c] |}).

(** The text that [hookMainCode] executes to. *)
Definition hookMainCode (autogen charmPackage hookPkg : string) : string :=
  lines [
    "";
    "// " +:+ autogen;
    "";
    "package main";
    "";
    "import (";
    tab +:+ dq +:+ "fmt" +:+ dq;
    tab +:+ dq +:+ "os" +:+ dq;
    tab +:+ "charm " +:+ Quote charmPackage;
    tab +:+ Quote hookPkg;
    ")";
    "";
    "func nop() error {";
    tab +:+ "return nil";
    "}";
    "";
    "func main() {";
    tab +:+ "r := hook.NewRegistry()";
    tab +:+ "charm.RegisterHooks(r)";
    tab +:+ "hook.RegisterMainHooks(r)";
    tab +:+ "ctxt, state, err := hook.NewContextFromEnvironment(r)";
    tab +:+ "if err != nil {";
    tab +:+ tab +:+ "fatalf(" +:+ dq +:+ "cannot create context: %v" +:+ dq +:+ ", err)";
    tab +:+ "}";
    tab +:+ "defer ctxt.Close()";
    tab +:+ "if err := hook.Main(r, ctxt, state); err != nil {";
    tab +:+ tab +:+ "fatalf(" +:+ dq +:+ "%v" +:+ dq +:+ ", err)";
    tab +:+ "}";
    "}";
    "";
    "func fatalf(f string, a ...interface{}) {";
    tab +:+ "fmt.Fprintf(os.Stderr, " +:+ dq +:+ "runhook: %s\n" +:+ dq +:+ ", fmt.Sprintf(f, a...))";
    tab +:+ "os.Exit(1)";
    "}"
  ].

Definition generateCode (charmPackage : string) : string :=
  hookMainCode autogenMessage charmPackage hookPackage.

Definition compile (goFile exeFile mainCode : string) (crossCompile : bool)
  : M unit :=
  env <- Environ ;;
  env <- (if crossCompile then
            env <- liftOutcome (setenv env "CGOENABLED=false") ;;
            env <- liftOutcome (setenv env "GOARCH=amd64") ;;
            liftOutcome (setenv env "GOOS=linux")
          else ret env) ;;
  onError Wrap (liftFS (OS.MkdirAll (Filepath.Dir goFile) perm0777)) ;;;
  onError Wrap (liftFS (OS.MkdirAll (Filepath.Dir exeFile) perm0777)) ;;;
  onError Wrap (liftFS (OS.WriteFile goFile mainCode perm0666)) ;;;
  onError (Wrapf "failed to build")
    (Run (runCmd "" env "go" ["build"; "-o"; exeFile; goFile])).

(** The loop of [writeHooks] over the hook names. *)
Fixpoint writeHookFiles (b : charmBuilder) (hookDir : string)
    (hooks : list string) : M unit :=
  match hooks with
  | [] => ret tt
  | hookName :: rest =>
      let hookPath := Filepath.Join [hookDir; hookName] in
      onError Wrap
        (liftFS (OS.WriteFile hookPath (hookStub b hookName) perm0755)) ;;;
      writeHookFiles b hookDir rest
  end.

Definition writeHooks (b : charmBuilder) (hooks : list string) : M unit :=
  let hookDir := Filepath.Join [charmDir b; "hooks"] in
  onError (Wrapf "failed to make hooks directory")
    (liftFS (OS.MkdirAll hookDir perm0777)) ;;;
  infos <- onError Wrap (readFS (OS.ReadDir hookDir)) ;;
  writeHookFiles b hookDir hooks.

(** The loop of [writeMeta] over the relations, in the order [rels]. *)
Fixpoint fileRelations (rels : list (string * Relation)) (meta : Meta)
  : outcome Meta :=
  match rels with
  | [] => Ok meta
  | (name, rel) :: rest =>
      if String.eqb (Role rel) RoleProvider then
        fileRelations rest
          (withRelations meta (<[name := rel]> (Provides meta))
             (Requires meta) (Peers meta))
      else if String.eqb (Role rel) RoleRequirer then
        fileRelations rest
          (withRelations meta (Provides meta)
             (<[name := rel]> (Requires meta)) (Peers meta))
      else if String.eqb (Role rel) RolePeer then
        fileRelations rest
          (withRelations meta (Provides meta) (Requires meta)
             (<[name := rel]> (Peers meta)))
      else
        Err (ErrNew ("unknown role " +:+ Quote (Role rel) +:+ " in relation"))
  end.

Definition writeYAML (file : string) (val : yamlValue) : M unit :=
  data <- onError (Wrapf "cannot marshal YAML") (liftResult (Marshal val)) ;;
  let data := yamlAutogenComment +:+ data in
  onError Wrap (liftFS (OS.WriteFile file data perm0666)).

Definition writeMeta (b : charmBuilder) (relations : gmap string Relation)
  : M unit :=
  metaFile <- onError Wrap
    (readFS (OS.ReadFile (Filepath.Join [PkgDir (pkg b); "metadata.yaml"]))) ;;
  meta <- onError
    (Wrapf ("cannot read metadata.yaml from " +:+ Quote (PkgDir (pkg b))))
    (liftResult (ReadMeta metaFile)) ;;
  let meta := withName meta (Filepath.Base (PkgDir (pkg b))) in
  let meta := withRelations meta ∅ ∅ ∅ in
  meta <- liftOutcome (fileRelations (map_to_list relations) meta) ;;
  onError (Wrapf "cannot write metadata.yaml")
    (writeYAML (Filepath.Join [charmDir b; "metadata.yaml"]) (OfMeta meta)).

Definition writeConfig (b : charmBuilder) (config : gmap string Option_)
  : M unit :=
  let configPath := Filepath.Join [charmDir b; "config.yaml"] in
  if (size config =? 0)%nat then ret tt
  else
    onError (Wrapf "cannot write config.yaml")
      (writeYAML configPath (OfConfig {| Options := config |})).

Definition vendorDeps (b : charmBuilder) : M unit :=
  let dir := Filepath.Join [charmDir b; "src"; "runhook"] in
  let gitCmd := runCmd dir [] "git" ["init"] in
  onError (Wrapf "cannot git init directory") (Run gitCmd) ;;;
  defer (RemoveAll (Filepath.Join [dir; ".git"])) (
    processEnv <- Environ ;;
    gopath <- Getenv "GOPATH" ;;
    env <- liftOutcome
      (setenv processEnv ("GOPATH=" +:+ gopath +:+ listSep +:+ charmDir b)) ;;
    fun w =>
      match Run (runCmd dir env "godep" ["save"]) w with
      | (Err err, w') =>
          if isExecNotFound err then
            (Err (ErrNew ("godep executable not found; get it with: go get "
                          +:+ godepPath)), w')
          else (Err (Wrap err), w')
      | r => r
      end).

Definition buildCharm (p : buildCharmParams) : M unit :=
  let b : charmBuilder := p in
  let code := generateCode (ImportPath (pkg b)) in
  let exe :=
    if source b then Filepath.Join [tempDir b; "runhook"]
    else Filepath.Join [charmDir b; "bin"; "runhook"] in
  let goFile := Filepath.Join [charmDir b; "src"; "runhook"; "runhook.go"] in
  onError (Wrapf "cannot build hooks main package")
    (compile goFile exe code true) ;;;
  (fun w =>
     match OS.Stat (fs w) exe with
     | Some _ => (Ok tt, w)
     | None => (Err (ErrNew "runhook command not built"), w)
     end) ;;;
  info <- onError Wrap
    (fun w =>
       let '(r, f') := registeredCharmInfo (ImportPath (pkg p)) (tempDir p) (fs w) in
       liftResult r (withFS w f')) ;;
  onError (Wrapf "cannot write hooks to charm") (writeHooks b (Hooks info)) ;;;
  onError (Wrapf "cannot write metadata.yaml") (writeMeta b (Relations info)) ;;;
  onError (Wrapf "cannot write config.yaml")
    (writeConfig b (ConfigOptions info)) ;;;
  onError (Wrapf "charm will not read correctly; we've broken it, sorry")
    (fun w =>
       match ReadCharmDir (charmDir b) (fs w) with
       | Some e => (Err e, w)
       | None => (Ok tt, w)
       end) ;;;
  if source b then
    onError (Wrapf "cannot get dependencies") (vendorDeps b) ;;;
    onError Wrap
      (liftFS (OS.WriteFile (Filepath.Join [charmDir b; "compile"])
                 compileScript perm0755))
  else ret tt.

(** *** The paths of the bundle, named for the theorems *)

Definition hooksDir (b : charmBuilder) : string :=
  Filepath.Join [charmDir b; "hooks"].

Definition hookPath (b : charmBuilder) (hookName : string) : string :=
  Filepath.Join [hooksDir b; hookName].

Definition configPath (b : charmBuilder) : string :=
  Filepath.Join [charmDir b; "config.yaml"].

Definition metaPath (b : charmBuilder) : string :=
  Filepath.Join [charmDir b; "metadata.yaml"].

Definition binRunhook (b : charmBuilder) : string :=
  Filepath.Join [charmDir b; "bin"; "runhook"].

(** The base metadata descriptor, in the source directory of the package. *)
Definition pkgMetaPath (b : charmBuilder) : string :=
  Filepath.Join [PkgDir (pkg b); "metadata.yaml"].

(** Where [buildCharm] has the executable built, and from which file. *)
Definition exePath (b : charmBuilder) : string :=
  if source b then Filepath.Join [tempDir b; "runhook"] else binRunhook b.

Definition goFilePath (b : charmBuilder) : string :=
  Filepath.Join [charmDir b; "src"; "runhook"; "runhook.go"].

(** *** The command of [compile], named for the theorems *)

(** [entry] set in [env]. *)
Definition withEntry (entry : string) (env : list string) : list string :=
  match setenv env entry with
  | Ok l => l
  | _ => env
  end.

(** The environment that [compile] hands to the toolchain. *)
Definition toolchainEnv (crossCompile : bool) (env : list string) : list string :=
  if crossCompile then
    withEntry "GOOS=linux"
      (withEntry "GOARCH=amd64" (withEntry "CGOENABLED=false" env))
  else env.

Definition goBuild (env : list string) (exeFile goFile : string) : Cmd :=
  runCmd "" env "go" ["build"; "-o"; exeFile; goFile].

(** The files that [writeHooks] writes: path and contents. *)
Definition hookFiles (b : charmBuilder) (hooks : list string)
  : list (string * string) :=
  (fun hookName => (hookPath b hookName, hookStub b hookName)) <$> hooks.

(** *** The commands of [vendorDeps], named for the theorems *)

Definition runhookDir (b : charmBuilder) : string :=
  Filepath.Join [charmDir b; "src"; "runhook"].

Definition gitDir (b : charmBuilder) : string :=
  Filepath.Join [runhookDir b; ".git"].

Definition gitInit (b : charmBuilder) : Cmd :=
  runCmd (runhookDir b) [] "git" ["init"].

(** The file system that [git init] leaves. *)
Definition afterGitInit (b : charmBuilder) (w : World) : filesystem :=
  (run (gitInit b) (fs w)).2.

Definition gopathEntry (b : charmBuilder) (w : World) : string :=
  "GOPATH=" +:+ default "" (lookupEnv (environ w) "GOPATH")
  +:+ listSep +:+ charmDir b.

Definition godepSave (b : charmBuilder) (w : World) : Cmd :=
  runCmd (runhookDir b)
    (match setenv (environ w) (gopathEntry b w) with
     | Ok env => env
     | _ => []
     end)
    "godep" ["save"].

(** The error of [vendorDeps] for a godep that is not installed. *)
Definition godepMissing : error :=
  ErrNew "godep executable not found; get it with: go get github.com/tools/godep".

End Gocharm.

(** ** The hook stub as a shell script *)

(** The statements that the stubs are made of. A command is kept as the
    line of text it is written as. *)
#[warnings="-register-all"]
Inductive sh :=
  | Shebang (interp : string)
  | SetFlags (flags : string)
  | Blank
  | Comment (text : string)
  | Command (line : string)
  | Export (assignment : string)
  | Exit (status : N)
  | IfTestE (path : string) (body : list sh).

(** The lines a statement is written as. *)
Fixpoint render (s : sh) : list string :=
  match s with
  | Shebang interp => ["#!" +:+ interp]
  | SetFlags flags => ["set " +:+ flags]
  | Blank => [""]
  | Comment text => ["# " +:+ text]
  | Command line => [line]
  | Export assignment => ["export " +:+ assignment]
  | Exit status => ["exit " +:+ pretty status]
  | IfTestE path body =>
      ["if test -e " +:+ dq +:+ path +:+ dq +:+ "; then"]
      ++ ((fun l => tab +:+ l) <$> concat (map render body))
      ++ ["fi"]
  end.

Definition renderScript (script : list sh) : string :=
  lines (concat (map render script)).

(** The script that [hookStubTemplate] writes, statement by statement. *)
Definition hookStubScript (p : hookStubParams) : list sh :=
  [Shebang "/bin/sh"; SetFlags "-ex"]
  ++ (if String.eqb (HookName p) "install" then
        [ Blank;
          Command "apt-get '--option=Dpkg::Options::=--force-confold'  '--option=Dpkg::options::=--force-unsafe-io' --assume-yes --quiet install golang git mercurial";
          Blank;
          IfTestE "$CHARM_DIR/bin/runhook"
            [ Comment "the binary has been pre-compiled; no need to compile again.";
              Exit 0 ];
          Export ("GOPATH=" +:+ dq +:+ "$CHARM_DIR" +:+ dq);
          Command ("go get " +:+ GodepPath p);
          Blank;
          Command (dq +:+ "$CHARM_DIR/compile" +:+ dq);
          Command (dq +:+ "$CHARM_DIR/bin/runhook" +:+ dq +:+ " install") ]
      else if Source p then
        [ Blank;
          IfTestE "$CHARM_DIR/compile-always"
            [ Command (dq +:+ "$CHARM_DIR/compile" +:+ dq) ] ]
      else [])
  ++ [Blank; Command ("$CHARM_DIR/bin/runhook " +:+ HookName p)].

(** The machine a stub runs on: which paths exist, and the exit status of
    each command. *)
Record shellHost := {
  testE : string -> bool;
  exitStatus : string -> Z
}.

(** One statement under [set -e]: the commands run, and the exit status if
    the script is over ([exit], or a command that failed). *)
Fixpoint execSh (h : shellHost) (s : sh) : list string * option Z :=
  match s with
  | Command line =>
      ([line], if exitStatus h line =? 0 then None else Some (exitStatus h line))
  | Exit status => ([], Some (Z.of_N status))
  | IfTestE path body =>
      if testE h path then
        (fix execBody (l : list sh) : list string * option Z :=
           match l with
           | [] => ([], None)
           | s' :: rest =>
               match execSh h s' with
               | (ran, Some status) => (ran, Some status)
               | (ran, None) =>
                   let '(ran', st) := execBody rest in (ran ++ ran', st)
               end
           end) body
      else ([], None)
  | _ => ([], None)
  end.

(** A script: the commands run, and its exit status. *)
Fixpoint execScript (h : shellHost) (script : list sh) : list string * Z :=
  match script with
  | [] => ([], 0)
  | s :: rest =>
      match execSh h s with
      | (ran, Some status) => (ran, status)
      | (ran, None) => let '(ran', st) := execScript h rest in (ran ++ ran', st)
      end
  end.

(** The command line that runs the executable of the bundle for a hook. *)
Definition runhookLine (hookName : string) : string :=
  "$CHARM_DIR/bin/runhook " +:+ hookName.

(** ** The environment that the toolchain reads *)

(** The go command takes the target from [GOOS] and [GOARCH], and turns cgo
    off when [CGO_ENABLED] is [0]. *)
Definition targetOS (env : list string) : option string := lookupEnv env "GOOS".
Definition targetArch (env : list string) : option string := lookupEnv env "GOARCH".
Definition cgoSetting (env : list string) : option string :=
  lookupEnv env "CGO_ENABLED".
Definition cgoDisabled (env : list string) : bool :=
  match cgoSetting env with
  | Some v => String.eqb v "0"
  | None => false
  end.

(** ** A host to run the pipeline on *)

Module Scenario.

Definition firstLine (s : string) : string :=
  default "" (head (Strings.Split s "010"%char)).

(** A metadata descriptor is read from its first line, [name: N]; every
    base descriptor declares the provider relation [website]. *)
Definition readMeta (content : string) : error + Meta :=
  if Strings.HasPrefix content "name: " then
    inr {| Name := firstLine (Strings.SliceFrom content 6);
           Summary := "a charm"; Description := ""; Subordinate := false;
           Provides :=
             {[ "website" :=
                  {| RelName := "website"; Role := RoleProvider;
                     Interface := "http"; Optional := false; Limit := 0;
                     Scope := "global" |} ]};
           Requires := ∅; Peers := ∅; Format := 1; OldRevision := 0;
           Categories := []; Series := "" |}
  else inl (LibError "metadata: name is missing").

Definition names {V} (m : gmap string V) : string :=
  Strings.Join (map_to_list m).*1 ",".

Definition marshal (val : yamlValue) : error + string :=
  match val with
  | OfMeta m =>
      inr (lines [ "name: " +:+ Name m;
                   "provides: " +:+ names (Provides m);
                   "requires: " +:+ names (Requires m);
                   "peers: " +:+ names (Peers m) ])
  | OfConfig c =>
      inr (lines ((fun kv => kv.1 +:+ ": " +:+ OptType kv.2)
                    <$> map_to_list (Options c)))
  end.

(** One line [key: type] of a config descriptor. *)
Definition readOption (line : string) : option (string * Option_) :=
  let i := Strings.Index line ": " in
  if i =? -1 then None
  else Some (Strings.Slice line 0 i,
             {| OptType := Strings.SliceFrom line (i + 2);
                OptDescription := ""; OptDefault := None |}).

Definition readConfig (content : string) : error + Config :=
  let body :=
    List.filter (fun l => negb (String.eqb l "") && negb (Strings.HasPrefix l "#"))
                (Strings.Split content "010"%char) in
  match mapM readOption body with
  | Some opts => inr {| Options := list_to_map opts |}
  | None => inl (LibError "config: malformed option")
  end.

Definition readCharmDir (dir : string) (f : filesystem) : option error :=
  match f !! Filepath.Join [dir; "metadata.yaml"] with
  | Some (File _ _) => None
  | _ => Some (LibError "metadata.yaml is missing")
  end.

(** The programs of the host: go writes the executable it is asked for,
    git makes its directory, godep (when installed) makes [Godeps]. *)
Definition programs (godepInstalled : bool) (c : Cmd) (f : filesystem)
  : option error * filesystem :=
  match Args c with
  | ["go"; "build"; "-o"; exe; goFile] =>
      (None, <[exe := File "ELF" perm0755]> f)
  | ["git"; "init"] =>
      (None,
       <[Filepath.Join [Dir c; ".git"; "HEAD"] := File "ref: refs/heads/master" perm0666]>
         (<[Filepath.Join [Dir c; ".git"] := Directory]> f))
  | ["godep"; "save"] =>
      if godepInstalled then
        (None, <[Filepath.Join [Dir c; "Godeps"] := Directory]> f)
      else (Some (ExecError "godep" ErrNotFound), f)
  | _ => (Some (ExecError (Path c) ErrNotFound), f)
  end.

Definition host (info : CharmInfo) (godepInstalled : bool) : Host :=
  {| run := programs godepInstalled;
     registeredCharmInfo := fun _ _ f => (inr info, f);
     ReadMeta := readMeta;
     ReadConfig := readConfig;
     ReadCharmDir := readCharmDir;
     Marshal := marshal;
     Quote := fun s => dq +:+ s +:+ dq |}.

Definition relation (name role interface : string) : Relation :=
  {| RelName := name; Role := role; Interface := interface;
     Optional := false; Limit := 0; Scope := "global" |}.

(** The package of the scenario: hooks install, start and config-changed,
    the provider relation db, the boolean option debug. *)
Definition info : CharmInfo :=
  {| Hooks := ["install"; "start"; "config-changed"];
     Relations := {[ "db" := relation "db" RoleProvider "mysql" ]};
     ConfigOptions :=
       {[ "debug" := {| OptType := "boolean"; OptDescription := "";
                        OptDefault := None |} ]} |}.

(** The same package with a relation of a role that does not exist. *)
Definition infoBadRole : CharmInfo :=
  {| Hooks := ["install"; "start"];
     Relations := {[ "db" := relation "db" RoleProvider "mysql";
                     "cache" := relation "cache" "consumer" "memcache" ]};
     ConfigOptions := ∅ |}.

Definition wordpress : Package :=
  {| ImportPath := "example.com/wordpress";
     PkgDir := "/go/src/example.com/wordpress" |}.

Definition disk : filesystem :=
  {[ "/go" := Directory;
     "/go/src" := Directory;
     "/go/src/example.com" := Directory;
     "/go/src/example.com/wordpress" := Directory;
     "/go/src/example.com/wordpress/metadata.yaml" := File ("name: wp" +:+ nl) perm0666;
     "/tmp" := Directory;
     "/charms" := Directory ]}.

Definition world : World :=
  {| fs := disk;
     environ := ["PATH=/usr/bin"; "GOPATH=/go"; "CGO_ENABLED=1"];
     started := [] |}.




(** The same disk with the bundle under another name than the package. *)
Definition blogDisk : filesystem :=
  <["/charms/trusty/blog" := Directory]>
    (<["/charms/trusty" := Directory]> disk).

Definition blogWorld : World := withFS world blogDisk.

(** The build request: the bundle goes to a directory named after the
    package, or to one named otherwise. *)
Definition request (dest : string) (vendoring : bool) : buildCharmParams :=
  {| pkg := wordpress; charmDir := dest; tempDir := "/tmp";
     source := vendoring |}.

(** A host on which no program is installed. *)
Definition bareHost : Host :=
  {| run := fun c f => (Some (ExecError (Path c) ErrNotFound), f);
     registeredCharmInfo := fun _ _ f => (inr info, f);
     ReadMeta := readMeta;
     ReadConfig := readConfig;
     ReadCharmDir := readCharmDir;
     Marshal := marshal;
     Quote := fun s => dq +:+ s +:+ dq |}.

End Scenario.

(** ** Names for the properties of the pipeline *)

(** The recompilation script of a bundle with vendored sources. *)
Definition compilePath (b : charmBuilder) : string :=
  Filepath.Join [charmDir b; "compile"].

(** The command lines of the stubs. *)
Definition aptGetLine : string :=
  "apt-get '--option=Dpkg::Options::=--force-confold'  '--option=Dpkg::options::=--force-unsafe-io' --assume-yes --quiet install golang git mercurial".

Definition compileLine : string := dq +:+ "$CHARM_DIR/compile" +:+ dq.

Definition quotedRunhookInstall : string :=
  dq +:+ "$CHARM_DIR/bin/runhook" +:+ dq +:+ " install".

(** Every command of [ran] has exited with status 0 on [h]. *)
Definition allSucceeded (h : shellHost) (ran : list string) : Prop :=
  Forall (fun line => exitStatus h line = 0) ran.

(** The fields of a metadata descriptor that are not relation sections
    agree, the name apart. *)
Definition sameDescription (m m' : Meta) : Prop :=
  Summary m = Summary m' /\ Description m = Description m'
  /\ Subordinate m = Subordinate m' /\ Format m = Format m'
  /\ OldRevision m = OldRevision m' /\ Categories m = Categories m'
  /\ Series m = Series m'.

(** A plain file name: one path element, and not one that [Clean] drops. *)
Definition plainName (x : string) : Prop :=
  Strings.Split x Filepath.Separator = [x]
  /\ String.eqb x "" = false /\ String.eqb x "." = false
  /\ String.eqb x ".." = false.

(** * Theorems *)

(** ** Strings *)

Lemma app_String (a : ascii) (s t : string) :
  String a s +:+ t = String a (s +:+ t).
Proof. reflexivity. Qed.

Lemma app_Empty (t : string) : "" +:+ t = t.
Proof. reflexivity. Qed.

Ltac sapp := rewrite ?app_String, ?app_Empty in *.

(** A decidable statement about concrete data, by evaluation. *)
Ltac by_evaluation :=
  match goal with
  | |- ?P => apply (@bool_decide_unpack P _); vm_compute; exact I
  end.

Lemma HasPrefix_app (p s : string) : Strings.HasPrefix (p +:+ s) p = true.
Proof.
  induction p as [|a p IH]; [reflexivity|].
  sapp. simpl. by rewrite Ascii.eqb_refl.
Qed.

Lemma HasPrefix_true (s p : string) :
  Strings.HasPrefix s p = true <-> exists rest, s = p +:+ rest.
Proof.
  split.
  - revert s. induction p as [|a p IH]; intros s Hp; simpl in *.
    + by exists s.
    + destruct s as [|b s]; [done|].
      destruct (Ascii.eqb a b) eqn:E; [|done].
      apply Ascii.eqb_eq in E as ->.
      destruct (IH _ Hp) as [rest ->]. by exists rest.
  - intros [rest ->]. apply HasPrefix_app.
Qed.

Lemma eq_in_entry (key value : string) :
  "="%char ∈ chars (key +:+ "=" +:+ value).
Proof.
  unfold chars. induction key as [|a key IH]; sapp; simpl; [left|by right].
Qed.

(** Two keys without [=] that are both followed by [=] at the start of one
    string are the same key. *)
Lemma key_prefix_inj (k k' r r' : string) :
  "="%char ∉ chars k -> "="%char ∉ chars k' ->
  k +:+ "=" +:+ r = k' +:+ "=" +:+ r' -> k = k'.
Proof.
  unfold chars.
  revert k'. induction k as [|a k IH]; intros [|a' k'] Hk Hk' E; sapp;
    simpl in *.
  - done.
  - injection E as <- _. exfalso. apply Hk'. left.
  - injection E as -> _. exfalso. apply Hk. left.
  - injection E as -> E. f_equal. apply IH; [| |done].
    + intros Hin. apply Hk. by right.
    + intros Hin. apply Hk'. by right.
Qed.

(** An entry either has no [=], or splits at its first [=] into key and
    value, and [strings.Index] finds that place. *)
Lemma Index_eq_cases (s : string) :
  (Strings.Index s "=" = (-1) /\ ("="%char ∉ chars s))
  \/ (exists key value,
        s = key +:+ "=" +:+ value /\ ("="%char ∉ chars key)
        /\ Strings.Index s "=" = Z.of_nat (String.length key)).
Proof.
  unfold chars.
  induction s as [|c s IH].
  - left. split; [done|]. simpl. apply not_elem_of_nil.
  - destruct (Ascii.eqb "=" c) eqn:E.
    + apply Ascii.eqb_eq in E as <-. right. exists "", s.
      split; [done|]. split; [apply not_elem_of_nil|done].
    + assert (c <> "="%char) as Hc.
      { intros ->. by rewrite Ascii.eqb_refl in E. }
      cbn [Strings.Index Strings.HasPrefix]. rewrite E.
      destruct IH as [[Hi Hn]|(key & value & -> & Hk & Hi)].
      * left. rewrite Hi. split; [done|].
        simpl. rewrite not_elem_of_cons. split; [congruence|done].
      * right. exists (String c key), value.
        split; [done|]. split.
        { simpl. rewrite not_elem_of_cons. split; [congruence|done]. }
        rewrite Hi. simpl String.length.
        destruct (Z.of_nat (String.length key) =? -1) eqn:E'; lia.
Qed.

Lemma substring_prefix (p s : string) :
  String.substring 0 (String.length p) (p +:+ s) = p.
Proof.
  induction p as [|a p IH]; sapp; simpl.
  - by destruct s.
  - by rewrite IH.
Qed.

Lemma substring_all (s : string) :
  String.substring 0 (String.length s) s = s.
Proof. induction s as [|b s IH]; simpl; [done|]. by rewrite IH. Qed.

Lemma substring_suffix (p s : string) :
  String.substring (String.length p) (String.length s) (p +:+ s) = s.
Proof.
  induction p as [|a p IH]; [apply substring_all|]. sapp. simpl. apply IH.
Qed.

Lemma length_app_string (p s : string) :
  String.length (p +:+ s) = (String.length p + String.length s)%nat.
Proof. induction p as [|a p IH]; [done|]. sapp. simpl. by rewrite IH. Qed.

Lemma app_assoc_string (a b c : string) : (a +:+ b) +:+ c = a +:+ b +:+ c.
Proof. induction a as [|x a IH]; [done|]. sapp. by rewrite IH. Qed.

Lemma Slice_key (key value : string) :
  Strings.Slice (key +:+ "=" +:+ value) 0 (Z.of_nat (String.length key) + 1)
  = key +:+ "=".
Proof.
  unfold Strings.Slice.
  replace (Z.to_nat (Z.of_nat (String.length key) + 1 - 0))
    with (String.length (key +:+ "=")).
  - replace (Z.to_nat 0) with 0%nat by done.
    rewrite <- (app_assoc_string key "=" value). apply substring_prefix.
  - rewrite length_app_string. simpl. lia.
Qed.

(** ** setenv and the lookup of a variable *)

Section Setenv.

Implicit Types (env l : list string) (entry key value : string).

(** What [setenv] returns for an entry with a key. *)
Lemma setenv_key env key value :
  "="%char ∉ chars key ->
  setenv env (key +:+ "=" +:+ value)
  = match list_find (startsWith key) env with
    | Some (i, _) => Ok (<[i := key +:+ "=" +:+ value]> env)
    | None => Ok (env ++ [key +:+ "=" +:+ value])
    end.
Proof.
  intros Hk. unfold setenv.
  destruct (Index_eq_cases (key +:+ "=" +:+ value))
    as [[_ Hn]|(key' & value' & E & Hk' & Hi)].
  - exfalso. apply Hn, eq_in_entry.
  - assert (key' = key) as -> by (symmetry; by eapply key_prefix_inj).
    rewrite Hi.
    destruct (Z.of_nat (String.length key) =? -1) eqn:E'; [lia|].
    by rewrite Slice_key.
Qed.

Lemma entry_startsWith key value : startsWith key (key +:+ "=" +:+ value).
Proof.
  unfold startsWith. rewrite <- app_assoc_string.
  by rewrite HasPrefix_app.
Qed.

Lemma startsWith_inj key key' e :
  "="%char ∉ chars key -> "="%char ∉ chars key' ->
  startsWith key e -> startsWith key' e -> key = key'.
Proof.
  unfold startsWith. intros Hk Hk' H1 H2.
  apply Is_true_true, HasPrefix_true in H1 as [r ->].
  apply Is_true_true, HasPrefix_true in H2 as [r' E].
  rewrite !app_assoc_string in E. by eapply key_prefix_inj.
Qed.

(** Replacing an element that [P] rejects by another that [P] rejects
    leaves the first element that [P] accepts where it is. *)
Lemma list_find_insert_rejected (P : string -> Prop)
    `{!forall x, Decision (P x)} l i x y :
  l !! i = Some x -> ~ P x -> ~ P y ->
  list_find P (<[i := y]> l) = list_find P l.
Proof.
  revert i. induction l as [|e l IH]; intros [|i] Hi Hx Hy; simpl in *;
    try done.
  - injection Hi as ->. by rewrite !decide_False.
  - by rewrite (IH i).
Qed.

Lemma list_find_snoc_rejected (P : string -> Prop)
    `{!forall x, Decision (P x)} l y :
  ~ P y -> list_find P (l ++ [y]) = list_find P l.
Proof.
  intros Hy. induction l as [|e l IH]; simpl.
  - by rewrite decide_False.
  - by rewrite IH.
Qed.

Lemma list_find_insert_first (P : string -> Prop)
    `{!forall x, Decision (P x)} l i x y :
  list_find P l = Some (i, x) -> P y ->
  list_find P (<[i := y]> l) = Some (i, y).
Proof.
  revert i. induction l as [|e l IH]; intros i Hf Hy; simpl in *; [done|].
  destruct (decide (P e)).
  - injection Hf as <- <-. simpl. by rewrite decide_True.
  - destruct (list_find P l) as [[j z]|] eqn:E; [|done].
    injection Hf as <- <-. simpl. rewrite decide_False by done.
    by rewrite (IH j).
Qed.

Lemma list_find_snoc_first (P : string -> Prop)
    `{!forall x, Decision (P x)} l y :
  list_find P l = None -> P y ->
  list_find P (l ++ [y]) = Some (length l, y).
Proof.
  intros Hf Hy. induction l as [|e l IH]; simpl in *.
  - by rewrite decide_True.
  - destruct (decide (P e)); [done|].
    destruct (list_find P l); [done|]. by rewrite IH.
Qed.

(** The variable that [setenv] sets has the value of the entry. *)
Lemma lookupEnv_setenv env key value l :
  "="%char ∉ chars key ->
  setenv env (key +:+ "=" +:+ value) = Ok l ->
  lookupEnv l key = Some value.
Proof.
  intros Hk. rewrite setenv_key by done. intros Hs.
  assert (list_find (startsWith key) l
          = Some (match list_find (startsWith key) env with
                  | Some (i, _) => i | None => length env end,
                  key +:+ "=" +:+ value)) as Hf.
  { destruct (list_find (startsWith key) env) as [[i old]|] eqn:E;
      injection Hs as <-.
    - eapply list_find_insert_first; [done|apply entry_startsWith].
    - apply list_find_snoc_first; [done|apply entry_startsWith]. }
  unfold lookupEnv. fold (startsWith key). rewrite Hf. f_equal.
  unfold Strings.SliceFrom, Strings.Slice.
  rewrite <- app_assoc_string.
  replace (Z.to_nat (Z.of_nat (String.length key) + 1))
    with (String.length (key +:+ "="))
    by (rewrite length_app_string; simpl; lia).
  replace (Z.to_nat _) with (String.length value).
  - apply substring_suffix.
  - rewrite !length_app_string. simpl. lia.
Qed.

(** Every other variable keeps its value. *)
Lemma lookupEnv_setenv_other env key value key' l :
  "="%char ∉ chars key -> "="%char ∉ chars key' -> key <> key' ->
  setenv env (key +:+ "=" +:+ value) = Ok l ->
  lookupEnv l key' = lookupEnv env key'.
Proof.
  intros Hk Hk' Hne. rewrite setenv_key by done. intros Hs.
  assert (~ startsWith key' (key +:+ "=" +:+ value)) as Hentry.
  { intros Hp. apply Hne.
    eapply startsWith_inj; [done|done|apply entry_startsWith|done]. }
  unfold lookupEnv. fold (startsWith key').
  destruct (list_find (startsWith key) env) as [[i old]|] eqn:E;
    injection Hs as <-.
  - apply list_find_Some in E as (Hi & Hold & _).
    erewrite list_find_insert_rejected; [done|done| |done].
    intros Hp. apply Hne. by eapply startsWith_inj.
  - by rewrite list_find_snoc_rejected.
Qed.

End Setenv.

(** C10. For every environment list and every entry: an entry that contains
    [=] splits into a key without [=], the [=] and a value, and [setenv]
    returns a list that holds the entry; the list is the given one with its
    first element that starts with the key and [=] replaced by the entry,
    every other element as it was, or, when no element starts so, the given
    list with the entry appended. [setenv] panics if and only if the entry
    contains no [=]. *)
Theorem setenv_replaces_first_or_appends (env : list string) (entry : string) :
  ("="%char ∈ chars entry ->
   exists key value l,
     entry = key +:+ "=" +:+ value /\ ("="%char ∉ chars key)
     /\ setenv env entry = Ok l /\ entry ∈ l
     /\ ((exists i old,
            env !! i = Some old /\ startsWith key old
            /\ (forall j e, env !! j = Some e -> (j < i)%nat -> ~ startsWith key e)
            /\ l = <[i := entry]> env
            /\ length l = length env
            /\ forall j, j <> i -> l !! j = env !! j)
         \/ (Forall (fun e => ~ startsWith key e) env /\ l = env ++ [entry])))
  /\ ((exists msg, setenv env entry = Panic msg) <-> "="%char ∉ chars entry).
Proof.
  destruct (Index_eq_cases entry) as [[Hi Hn]|(key & value & -> & Hk & Hi)].
  - split; [done|]. split; [done|]. intros _.
    exists "no = in environment entry". unfold setenv. by rewrite Hi.
  - pose proof (eq_in_entry key value) as Hin.
    split; [|split; [|done]].
    + intros _. exists key, value.
      rewrite setenv_key by done.
      destruct (list_find (startsWith key) env) as [[i old]|] eqn:E.
      * eexists. split; [done|]. split; [done|]. split; [done|].
        apply list_find_Some in E as (Hold & Hp & Hfirst).
        split.
        { apply list_elem_of_lookup. exists i.
          apply list_lookup_insert_eq. by eapply lookup_lt_Some. }
        left. exists i, old. repeat split; try done.
        -- apply length_insert.
        -- intros j Hj. by apply list_lookup_insert_ne.
      * eexists. split; [done|]. split; [done|]. split; [done|].
        split; [set_solver|].
        right. split; [|done]. by apply (list_find_None (startsWith key)).
    + intros [msg Hp]. rewrite setenv_key in Hp by done.
      by destruct (list_find (startsWith key) env) as [[??]|].
Qed.

Lemma setenv_replaces_first_or_appends_witness :
  "="%char ∈ chars "GOOS=linux"
  /\ setenv ["PATH=/bin"; "GOOS=darwin"; "GOOS=plan9"] "GOOS=linux"
     = Ok ["PATH=/bin"; "GOOS=linux"; "GOOS=plan9"].
Proof.
  assert ("="%char ∈ chars "GOOS=linux") as Hin by by_evaluation.
  split; [exact Hin|].
  destruct (setenv_replaces_first_or_appends
              ["PATH=/bin"; "GOOS=darwin"; "GOOS=plan9"] "GOOS=linux")
    as [Hsome _].
  destruct (Hsome Hin) as (key & value & l & _ & _ & Hl & _).
  rewrite Hl. vm_compute in Hl. symmetry. exact Hl.
Defined.

(** ** The file system *)

Section FileSystem.

Implicit Types (f g : filesystem) (path q data : string) (perm : N).

Lemma WriteFile_inv path data perm f r f' :
  OS.WriteFile path data perm f = (r, f') ->
  (r = None /\ OS.Stat f path <> Some Directory
   /\ exists perm', f' = <[path := File data perm']> f
        /\ (forall d p0, f !! path = Some (File d p0) -> perm' = p0)
        /\ (f !! path = None -> perm' = perm))
  \/ (exists e, r = Some e /\ f' = f).
Proof.
  unfold OS.WriteFile, OS.Stat. intros Hw.
  destruct (f !! path) as [[d p0|]|] eqn:E.
  - injection Hw as <- <-. left. split; [done|]. split; [done|].
    exists p0. split; [done|]. split; [|done]. by intros ?? [= _ ->].
  - injection Hw as <- <-. right. eauto.
  - destruct (OS.isRoot path).
    { injection Hw as <- <-. right. eauto. }
    destruct (match f !! Filepath.Dir path with
              | Some n => Some n
              | None => if OS.isRoot (Filepath.Dir path)
                        then Some Directory else None
              end) as [[d p0|]|]; injection Hw as <- <-;
      [right; eauto| |right; eauto].
    left. split; [done|]. split; [done|]. exists perm. by split.
Qed.



(** [WriteFile] touches no other path. *)
Lemma WriteFile_other path data perm f r f' q :
  OS.WriteFile path data perm f = (r, f') -> q <> path -> f' !! q = f !! q.
Proof.
  intros [(_ & _ & p' & -> & _)|(e & _ & ->)]%WriteFile_inv Hq; [|done].
  by rewrite lookup_insert_ne.
Qed.








End FileSystem.

(** ** writeHooks *)

Section WriteEach.

Implicit Types (f g : filesystem) (files : list (string * string)).

Lemma writeEach_other files perm f r f' q :
  writeEach files perm f = (r, f') -> q ∉ files.*1 -> f' !! q = f !! q.
Proof.
  revert f. induction files as [|[p d] files IH]; intros f Hw Hq; simpl in *.
  - by injection Hw as <- <-.
  - apply not_elem_of_cons in Hq as [Hne Hq].
    destruct (OS.WriteFile p d perm f) as [[e|] f1] eqn:E.
    + injection Hw as <- <-. by eapply WriteFile_other.
    + rewrite (IH _ Hw Hq). by eapply WriteFile_other.
Qed.




(** After all writes have succeeded, each path holds the contents of one
    of the writes to it. *)
Lemma writeEach_written files perm f f' p d :
  writeEach files perm f = (None, f') -> (p, d) ∈ files ->
  exists d' perm', (p, d') ∈ files /\ f' !! p = Some (File d' perm').
Proof.
  revert f d. induction files as [|[p1 d1] files IH]; intros f d Hw Hin;
    simpl in *.
  - by apply elem_of_nil in Hin.
  - destruct (OS.WriteFile p1 d1 perm f) as [[e|] f1] eqn:E; [done|].
    destruct (decide (p ∈ files.*1)) as [Hlater|Hlast].
    + apply list_elem_of_fmap in Hlater as ([p2 d2] & Hp & Hin2).
      simpl in Hp. subst p2.
      destruct (IH _ _ Hw Hin2) as (d' & perm' & Hin' & Hl).
      exists d', perm'. split; [by right|done].
    + apply elem_of_cons in Hin as [[= -> ->]|Hin].
      * apply WriteFile_inv in E as [(_ & _ & p' & -> & _)|(? & [=] & _)].
        exists d1, p'. split; [left|].
        rewrite (writeEach_other _ _ _ _ _ _ Hw Hlast).
        by rewrite lookup_insert_eq.
      * exfalso. apply Hlast. apply list_elem_of_fmap. by exists (p, d).
Qed.





End WriteEach.

Lemma withFS_id (w : World) : withFS w (fs w) = w.
Proof. by destruct w. Qed.

Section WriteHooks.

Implicit Types (b : charmBuilder) (hooks : list string) (w : World).

Lemma writeHookFiles_run b hooks w :
  writeHookFiles b (hooksDir b) hooks w
  = (match (writeEach (hookFiles b hooks) perm0755 (fs w)).1 with
     | None => Ok tt
     | Some e => Err (Wrap e)
     end,
     withFS w (writeEach (hookFiles b hooks) perm0755 (fs w)).2).
Proof.
  revert w. induction hooks as [|h hooks IH]; intros w; simpl.
  - unfold ret. by rewrite withFS_id.
  - unfold bind, onError, liftFS. fold (hookPath b h).
    destruct (OS.WriteFile _ _ _ _) as [[e|] f1]; simpl; [done|].
    by rewrite IH.
Qed.

Lemma writeHooks_run b hooks w :
  writeHooks b hooks w
  = match OS.MkdirAll (hooksDir b) perm0777 (fs w) with
    | (Some e, f1) =>
        (Err (Wrapf "failed to make hooks directory" e), withFS w f1)
    | (None, f1) =>
        match OS.ReadDir (hooksDir b) f1 with
        | inl e => (Err (Wrap e), withFS w f1)
        | inr _ => writeHookFiles b (hooksDir b) hooks (withFS w f1)
        end
    end.
Proof.
  unfold writeHooks. fold (hooksDir b).
  unfold bind, onError, liftFS, readFS, liftResult.
  destruct (OS.MkdirAll _ _ _) as [[e|] f1]; simpl; [done|].
  by destruct (OS.ReadDir _ _).
Qed.



End WriteHooks.



(** ** vendorDeps *)

Section VendorDeps.
Context `{Host}.

Lemma setenv_gopath (b : charmBuilder) (w : World) :
  exists env, setenv (environ w) (gopathEntry b w) = Ok env.
Proof.
  unfold gopathEntry.
  change ("GOPATH=" +:+ ?v) with ("GOPATH" +:+ "=" +:+ v).
  rewrite setenv_key.
  - destruct (list_find _ _) as [[??]|]; eauto.
  - by_evaluation.
Qed.

(** [vendorDeps], step by step. *)
Lemma vendorDeps_run (b : charmBuilder) (w : World) :
  vendorDeps b w
  = match run (gitInit b) (fs w) with
    | (Some e, f1) =>
        (Err (ErrWrap "cannot git init directory" e),
         {| fs := f1; environ := environ w;
            started := started w ++ [gitInit b] |})
    | (None, f1) =>
        let '(r, f2) := run (godepSave b w) f1 in
        (match r with
         | None => Ok tt
         | Some err =>
             if isExecNotFound err then Err godepMissing else Err (Wrap err)
         end,
         {| fs := OS.RemoveAll (gitDir b) f2; environ := environ w;
            started := (started w ++ [gitInit b]) ++ [godepSave b w] |})
    end.
Proof.
  unfold vendorDeps, godepSave.
  destruct (setenv_gopath b w) as [env Henv].
  unfold bind at 1. unfold onError at 1. unfold Run at 1.
  fold (runhookDir b). fold (gitInit b).
  destruct (run (gitInit b) (fs w)) as [[e|] f1]; [done|].
  unfold defer, bind, Environ, Getenv, liftOutcome, Run. simpl.
  unfold gopathEntry in Henv. simpl in Henv. rewrite Henv.
  fold (runhookDir b). unfold gopathEntry. simpl. rewrite Henv.
  destruct (run _ f1) as [[err|] f2]; [|done].
  by destruct (isExecNotFound err).
Qed.

(** [os.RemoveAll] leaves nothing at the path or below it. *)
Lemma RemoveAll_gone (path q : string) (f : filesystem) :
  Is_true (OS.under path q) -> OS.RemoveAll path f !! q = None.
Proof.
  intros Hu. unfold OS.RemoveAll. apply map_lookup_filter_None.
  right. intros x _. simpl. tauto.
Qed.

(** What is not at the path or below it stays. *)
Lemma RemoveAll_other (path q : string) (f : filesystem) :
  ~ Is_true (OS.under path q) -> OS.RemoveAll path f !! q = f !! q.
Proof.
  intros Hu. unfold OS.RemoveAll.
  destruct (f !! q) as [n|] eqn:E.
  - apply map_lookup_filter_Some. by split.
  - apply map_lookup_filter_None. by left.
Qed.

(** C9. When [git init] has made its directory, then however [vendorDeps]
    returns, with success or with any error of the later steps, no path at
    or below the [.git] directory of the embedded source tree is left in
    the file system; and [vendorDeps] does return: it does not panic. *)
Theorem vendorDeps_removes_git_dir (b : charmBuilder) (w : World) :
  (run (gitInit b) (fs w)).1 = None ->
  (forall q, Is_true (OS.under (gitDir b) q) ->
             fs (vendorDeps b w).2 !! q = None)
  /\ (forall msg, (vendorDeps b w).1 <> Panic msg).
Proof.
  intros Hgit. rewrite vendorDeps_run.
  destruct (run (gitInit b) (fs w)) as [[e|] f1]; [done|].
  destruct (run (godepSave b w) f1) as [r f2]. simpl. split.
  - intros q Hq. by apply RemoveAll_gone.
  - intros msg. destruct r as [err|]; [|done].
    by destruct (isExecNotFound err).
Qed.


End VendorDeps.

Lemma vendorDeps_removes_git_dir_witness :
  let h := Scenario.host Scenario.info true in
  let b := Scenario.request "/charms/trusty/blog" true in
  (@run h (@gitInit b) (fs Scenario.world)).1 = None
  /\ fs (@vendorDeps h b Scenario.world).2 !! "/charms/trusty/blog/src/runhook/.git/HEAD"
     = None.
Proof.
  intros h b.
  assert ((@run h (@gitInit b) (fs Scenario.world)).1 = None) as Hgit
    by reflexivity.
  split; [exact Hgit|].
  apply (@vendorDeps_removes_git_dir h b Scenario.world Hgit).
  vm_compute. exact I.
Defined.


(** ** writeYAML, writeConfig and writeMeta *)

Section Descriptors.
Context `{Host}.

Implicit Types (b : charmBuilder) (w : World).

Lemma writeYAML_run file val w :
  writeYAML file val w
  = match Marshal val with
    | inl e => (Err (Wrapf "cannot marshal YAML" e), w)
    | inr data =>
        match OS.WriteFile file (yamlAutogenComment +:+ data) perm0666 (fs w) with
        | (Some e, f') => (Err (Wrap e), withFS w f')
        | (None, f') => (Ok tt, withFS w f')
        end
    end.
Proof.
  unfold writeYAML, bind, onError, liftResult, liftFS.
  destruct (Marshal val) as [e|data]; [done|].
  by destruct (OS.WriteFile _ _ _ _) as [[e|] f'].
Qed.

(** When [writeYAML] succeeds, the file holds the banner and the
    marshalled value, and no other path has changed. *)
Lemma writeYAML_Ok file val w w' :
  writeYAML file val w = (Ok tt, w') ->
  exists data,
    Marshal val = inr data
    /\ OS.ReadFile file (fs w') = inr (yamlAutogenComment +:+ data)
    /\ (forall q, q <> file -> fs w' !! q = fs w !! q)
    /\ environ w' = environ w /\ started w' = started w.
Proof.
  rewrite writeYAML_run. destruct (Marshal val) as [e|data]; [done|].
  destruct (OS.WriteFile _ _ _ _) as [[e|] f'] eqn:E; [done|].
  intros [= <-]. exists data. split; [done|].
  apply WriteFile_inv in E as [(_ & _ & p' & -> & _)|(? & [=] & _)].
  simpl. split; [|split; [|done]].
  - unfold OS.ReadFile, OS.Stat. by rewrite lookup_insert_eq.
  - intros q Hq. by rewrite lookup_insert_ne.
Qed.



(** *** The relations loop *)

Lemma knownRole_cases role :
  knownRole role = true ->
  role = RoleProvider \/ role = RoleRequirer \/ role = RolePeer.
Proof.
  unfold knownRole. rewrite !orb_true_iff, !String.eqb_eq. tauto.
Qed.

(** One round of the loop, for a relation of a role that is filed. *)
Lemma fileRelations_cons name rel rest meta :
  knownRole (Role rel) = true ->
  exists meta1,
    fileRelations ((name, rel) :: rest) meta = fileRelations rest meta1
    /\ Name meta1 = Name meta
    /\ forall role, knownRole role = true ->
         sectionOf role meta1
         = if decide (role = Role rel) then <[name := rel]> (sectionOf role meta)
           else sectionOf role meta.
Proof.
  intros Hk. simpl.
  destruct (knownRole_cases _ Hk) as [E|[E|E]]; rewrite E; simpl;
    (eexists; split; [reflexivity|]; split; [reflexivity|]);
    intros role [->| [->| ->]]%knownRole_cases; reflexivity.
Qed.

Lemma fileRelations_unknown name rel rest meta :
  knownRole (Role rel) = false ->
  fileRelations ((name, rel) :: rest) meta
  = Err (ErrNew ("unknown role " +:+ Quote (Role rel) +:+ " in relation")).
Proof.
  unfold knownRole. rewrite !orb_false_iff. intros [[E1 E2] E3]. simpl.
  unfold RoleProvider, RoleRequirer, RolePeer in *. by rewrite E1, E2, E3.
Qed.

(** The loop fails on a relation of a role that is not filed, and
    otherwise returns; it does not panic. *)
Lemma fileRelations_outcome rels meta :
  (exists name rel, (name, rel) ∈ rels /\ knownRole (Role rel) = false)
  /\ (exists e, fileRelations rels meta = Err e)
  \/ Forall (fun nr => knownRole (Role nr.2) = true) rels
     /\ (exists meta', fileRelations rels meta = Ok meta').
Proof.
  revert meta. induction rels as [|[name rel] rels IH]; intros meta.
  - right. split; [constructor|]. by eexists.
  - destruct (knownRole (Role rel)) eqn:Hk.
    + destruct (fileRelations_cons name rel rels meta Hk) as (meta1 & -> & _).
      destruct (IH meta1) as [[(n & r & Hin & Hr) He]|[Hall Hok]].
      * left. split; [|done]. exists n, r. split; [by right|done].
      * right. split; [|done]. by constructor.
    + left. split.
      * exists name, rel. split; [left|done].
      * rewrite fileRelations_unknown by done. by eexists.
Qed.

(** What the loop leaves in the sections, for relations of distinct names
    none of which is in a section yet. *)
Lemma fileRelations_sections rels meta meta' :
  NoDup rels.*1 ->
  (forall role name, knownRole role = true -> name ∈ rels.*1 ->
                     sectionOf role meta !! name = None) ->
  fileRelations rels meta = Ok meta' ->
  Name meta' = Name meta
  /\ forall role, knownRole role = true ->
     forall name rel,
       sectionOf role meta' !! name = Some rel
       <-> ((name, rel) ∈ rels /\ Role rel = role)
           \/ sectionOf role meta !! name = Some rel.
Proof.
  revert meta. induction rels as [|[n0 r0] rels IH]; intros meta Hnd Hfresh Hok.
  - injection Hok as <-. split; [done|]. intros role _ name rel.
    split; [by right|]. intros [[Hin _]|?]; [|done].
    by apply elem_of_nil in Hin.
  - simpl in Hnd. apply NoDup_cons in Hnd as [Hn0 Hnd].
    destruct (knownRole (Role r0)) eqn:Hk;
      [|by rewrite fileRelations_unknown in Hok].
    destruct (fileRelations_cons n0 r0 rels meta Hk) as (meta1 & E & Hname & Hsec).
    rewrite E in Hok.
    destruct (IH meta1 Hnd) as [Hname' IH']; [|done|].
    { intros role name Hrole Hin. rewrite (Hsec role Hrole).
      assert (name <> n0) as Hne by (by intros ->).
      assert (sectionOf role meta !! name = None) as Hnone.
      { apply Hfresh; [done|]. simpl. by right. }
      case_decide; [by rewrite lookup_insert_ne|done]. }
    split; [congruence|].
    intros role Hrole name rel. rewrite (IH' role Hrole name rel).
    rewrite (Hsec role Hrole). split.
    + intros [[Hin Hr]|Hl]; [left; split; [by right|done]|].
      case_decide as Hd.
      * destruct (decide (name = n0)) as [->|Hne].
        -- rewrite lookup_insert_eq in Hl. injection Hl as <-.
           left. split; [left|done].
        -- rewrite lookup_insert_ne in Hl by done. by right.
      * by right.
    + intros [[Hin Hr]|Hl].
      * apply elem_of_cons in Hin as [[= -> ->]|Hin]; [|by left].
        right. rewrite decide_True by done. by rewrite lookup_insert_eq.
      * right. case_decide; [|done].
        destruct (decide (name = n0)) as [->|Hne].
        -- rewrite Hfresh in Hl; [done|done|]. simpl. left.
        -- by rewrite lookup_insert_ne.
Qed.

(** *** writeMeta *)

Lemma sectionOf_emptied role meta :
  sectionOf role (withRelations meta ∅ ∅ ∅) = ∅.
Proof. unfold sectionOf. simpl. by repeat case_match. Qed.

Lemma writeMeta_run b relations w :
  writeMeta b relations w
  = match OS.ReadFile (pkgMetaPath b) (fs w) with
    | inl e => (Err (Wrap e), w)
    | inr content =>
        match ReadMeta content with
        | inl e =>
            (Err (Wrapf ("cannot read metadata.yaml from "
                         +:+ Quote (PkgDir (pkg b))) e), w)
        | inr base =>
            match fileRelations (map_to_list relations)
                    (withRelations
                       (withName base (Filepath.Base (PkgDir (pkg b))))
                       ∅ ∅ ∅) with
            | Ok meta =>
                onError (Wrapf "cannot write metadata.yaml")
                  (writeYAML (metaPath b) (OfMeta meta)) w
            | Err e => (Err e, w)
            | Panic msg => (Panic msg, w)
            end
        end
    end.
Proof.
  unfold writeMeta. fold (pkgMetaPath b) (metaPath b).
  unfold bind at 1. unfold onError at 1. unfold readFS, liftResult.
  destruct (OS.ReadFile _ _) as [e|content]; [done|].
  unfold bind at 1. unfold onError at 1. unfold liftResult.
  destruct (ReadMeta content) as [e|base]; [done|].
  unfold bind, liftOutcome.
  by destruct (fileRelations _ _).
Qed.

(** What a successful [writeMeta] has written. *)
Lemma writeMeta_Ok b relations w w' :
  writeMeta b relations w = (Ok tt, w') ->
  exists content base meta data,
    OS.ReadFile (pkgMetaPath b) (fs w) = inr content
    /\ ReadMeta content = inr base
    /\ Marshal (OfMeta meta) = inr data
    /\ OS.ReadFile (metaPath b) (fs w') = inr (yamlAutogenComment +:+ data)
    /\ (forall q, q <> metaPath b -> fs w' !! q = fs w !! q)
    /\ Name meta = Filepath.Base (PkgDir (pkg b))
    /\ forall role, knownRole role = true ->
       forall name rel,
         sectionOf role meta !! name = Some rel
         <-> relations !! name = Some rel /\ Role rel = role.
Proof.
  rewrite writeMeta_run.
  destruct (OS.ReadFile _ _) as [e|content] eqn:Ec; [done|].
  destruct (ReadMeta content) as [e|base] eqn:Eb; [done|].
  destruct (fileRelations _ _) as [meta|e|msg] eqn:Ef; [|done|done].
  unfold onError.
  destruct (writeYAML _ _ w) as [[[]|e|msg] w1] eqn:Ey; [|done|done].
  intros [= <-].
  apply writeYAML_Ok in Ey as (data & Hdata & Hread & Hother & _).
  exists content, base, meta, data.
  split; [done|]. split; [done|]. split; [done|]. split; [done|].
  split; [done|].
  apply fileRelations_sections in Ef as [Hname Hsec].
  - split; [done|]. intros role Hrole name rel.
    rewrite (Hsec role Hrole), elem_of_map_to_list.
    split; [|by left]. intros [?|Hempty]; [done|].
    by rewrite sectionOf_emptied, lookup_empty in Hempty.
  - apply NoDup_fst_map_to_list.
  - intros role name _ _. by rewrite sectionOf_emptied, lookup_empty.
Qed.

(** A relation of a role that is not filed makes [writeMeta] fail, with
    the world as it was. *)
Lemma writeMeta_unknown_role b (relations : gmap string Relation) w name rel :
  relations !! name = Some rel -> knownRole (Role rel) = false ->
  exists e, writeMeta b relations w = (Err e, w).
Proof.
  intros Hin Hrole. rewrite writeMeta_run.
  destruct (OS.ReadFile _ _) as [e|content]; [by eexists|].
  destruct (ReadMeta content) as [e|base]; [by eexists|].
  destruct (fileRelations_outcome (map_to_list relations)
              (withRelations (withName base (Filepath.Base (PkgDir (pkg b))))
                 ∅ ∅ ∅)) as [[_ [e ->]]|[Hall _]]; [by eexists|].
  rewrite Forall_forall in Hall.
  assert (knownRole (Role rel) = true) as Hk; [|congruence].
  apply (Hall (name, rel)). by apply elem_of_map_to_list.
Qed.

End Descriptors.

(** ** compile *)

Section Compile.
Context `{Host}.

Lemma setenv_literal env entry key value :
  entry = key +:+ "=" +:+ value -> "="%char ∉ chars key ->
  setenv env entry = Ok (withEntry entry env).
Proof.
  intros -> Hk. unfold withEntry. rewrite setenv_key by done.
  by destruct (list_find _ _) as [[??]|].
Qed.

Lemma compile_run goFile exeFile mainCode crossCompile w :
  compile goFile exeFile mainCode crossCompile w
  = match OS.MkdirAll (Filepath.Dir goFile) perm0777 (fs w) with
    | (Some e, f1) => (Err (Wrap e), withFS w f1)
    | (None, f1) =>
        match OS.MkdirAll (Filepath.Dir exeFile) perm0777 f1 with
        | (Some e, f2) => (Err (Wrap e), withFS w f2)
        | (None, f2) =>
            match OS.WriteFile goFile mainCode perm0666 f2 with
            | (Some e, f3) => (Err (Wrap e), withFS w f3)
            | (None, f3) =>
                let c := goBuild (toolchainEnv crossCompile (environ w))
                           exeFile goFile in
                (match (run c f3).1 with
                 | Some e => Err (Wrapf "failed to build" e)
                 | None => Ok tt
                 end,
                 {| fs := (run c f3).2; environ := environ w;
                    started := started w ++ [c] |})
            end
        end
    end.
Proof.
  unfold compile. unfold bind at 1. unfold Environ.
  assert ((if crossCompile
           then env <- liftOutcome (setenv (environ w) "CGOENABLED=false") ;;
                env0 <- liftOutcome (setenv env "GOARCH=amd64") ;;
                liftOutcome (setenv env0 "GOOS=linux")
           else ret (environ w)) w
          = (Ok (toolchainEnv crossCompile (environ w)), w)) as Henv.
  { destruct crossCompile; [|done].
    unfold bind, liftOutcome, toolchainEnv.
    rewrite (setenv_literal _ "CGOENABLED=false" "CGOENABLED" "false")
      by (reflexivity || by_evaluation).
    rewrite (setenv_literal _ "GOARCH=amd64" "GOARCH" "amd64")
      by (reflexivity || by_evaluation).
    by rewrite (setenv_literal _ "GOOS=linux" "GOOS" "linux")
      by (reflexivity || by_evaluation). }
  unfold bind at 1. rewrite Henv.
  unfold bind, onError, liftFS, Run, goBuild. simpl.
  destruct (OS.MkdirAll (Filepath.Dir goFile) _ _) as [[e|] f1]; [done|].
  simpl. destruct (OS.MkdirAll (Filepath.Dir exeFile) _ _) as [[e|] f2];
    [done|].
  simpl. destruct (OS.WriteFile _ _ _ _) as [[e|] f3]; [done|].
  simpl. by destruct (run _ f3) as [[e|] f4].
Qed.

(** Under cross compilation the toolchain is handed [GOOS=linux] and
    [GOARCH=amd64], and the variable [CGOENABLED]; every other variable,
    [CGO_ENABLED] among them, is handed on as the process has it. *)
Lemma toolchainEnv_cross env :
  targetOS (toolchainEnv true env) = Some "linux"
  /\ targetArch (toolchainEnv true env) = Some "amd64"
  /\ lookupEnv (toolchainEnv true env) "CGOENABLED" = Some "false"
  /\ forall key,
       "="%char ∉ chars key ->
       key <> "GOOS" -> key <> "GOARCH" -> key <> "CGOENABLED" ->
       lookupEnv (toolchainEnv true env) key = lookupEnv env key.
Proof.
  unfold toolchainEnv, targetOS, targetArch.
  set (e1 := withEntry "CGOENABLED=false" env).
  set (e2 := withEntry "GOARCH=amd64" e1).
  set (e3 := withEntry "GOOS=linux" e2).
  assert (setenv env ("CGOENABLED" +:+ "=" +:+ "false") = Ok e1) as H1
    by (apply (setenv_literal _ _ "CGOENABLED" "false"); [done|by_evaluation]).
  assert (setenv e1 ("GOARCH" +:+ "=" +:+ "amd64") = Ok e2) as H2
    by (apply (setenv_literal _ _ "GOARCH" "amd64"); [done|by_evaluation]).
  assert (setenv e2 ("GOOS" +:+ "=" +:+ "linux") = Ok e3) as H3
    by (apply (setenv_literal _ _ "GOOS" "linux"); [done|by_evaluation]).
  assert ("="%char ∉ chars "GOOS") as K3 by by_evaluation.
  assert ("="%char ∉ chars "GOARCH") as K2 by by_evaluation.
  assert ("="%char ∉ chars "CGOENABLED") as K1 by by_evaluation.
  split; [by eapply lookupEnv_setenv|]. split; [|split].
  - rewrite (lookupEnv_setenv_other _ _ _ "GOARCH" _ K3 K2 ltac:(done) H3).
    by eapply lookupEnv_setenv.
  - rewrite (lookupEnv_setenv_other _ _ _ "CGOENABLED" _ K3 K1 ltac:(done) H3).
    rewrite (lookupEnv_setenv_other _ _ _ "CGOENABLED" _ K2 K1 ltac:(done) H2).
    by eapply lookupEnv_setenv.
  - intros key Hk N3 N2 N1.
    rewrite (lookupEnv_setenv_other _ _ _ key _ K3 Hk ltac:(done) H3).
    rewrite (lookupEnv_setenv_other _ _ _ key _ K2 Hk ltac:(done) H2).
    by rewrite (lookupEnv_setenv_other _ _ _ key _ K1 Hk ltac:(done) H1).
Qed.

(** The setting of cgo that the toolchain reads is the one of the
    process. *)
Lemma toolchainEnv_cgo crossCompile env :
  cgoSetting (toolchainEnv crossCompile env) = cgoSetting env.
Proof.
  destruct crossCompile; [|done].
  apply toolchainEnv_cross; [by_evaluation|done..].
Qed.

(** The commands that [compile] starts: none, or the one [go build] with
    the environment [toolchainEnv]; without cross compilation that is the
    environment of the process. *)
Lemma compile_started goFile exeFile mainCode crossCompile w :
  let w' := (compile goFile exeFile mainCode crossCompile w).2 in
  started w' = started w
  \/ started w'
     = started w
       ++ [goBuild (toolchainEnv crossCompile (environ w)) exeFile goFile].
Proof.
  rewrite compile_run.
  destruct (OS.MkdirAll (Filepath.Dir goFile) _ _) as [[e|] f1]; [by left|].
  destruct (OS.MkdirAll (Filepath.Dir exeFile) _ _) as [[e|] f2]; [by left|].
  destruct (OS.WriteFile _ _ _ _) as [[e|] f3]; [by left|].
  by right.
Qed.

Lemma compile_noPanic goFile exeFile mainCode crossCompile :
  noPanic (compile goFile exeFile mainCode crossCompile).
Proof.
  intros w msg. rewrite compile_run.
  destruct (OS.MkdirAll (Filepath.Dir goFile) _ _) as [[e|] f1]; [done|].
  destruct (OS.MkdirAll (Filepath.Dir exeFile) _ _) as [[e|] f2]; [done|].
  destruct (OS.WriteFile _ _ _ _) as [[e|] f3]; [done|].
  simpl. by destruct (run _ f3).1.
Qed.

End Compile.

(** ** buildCharm *)

Section BuildCharm.
Context `{Host}.

Implicit Types (b p : buildCharmParams) (w : World).







Lemma noPanic_writeHooks b hooks : noPanic (writeHooks b hooks).
Proof.
  intros w msg. rewrite writeHooks_run.
  destruct (OS.MkdirAll _ _ _) as [[e|] f1]; [done|].
  destruct (OS.ReadDir _ _); [done|].
  rewrite writeHookFiles_run. simpl. by destruct (writeEach _ _ _).1.
Qed.

(** C4, as the code has it. When [writeMeta] succeeds, the descriptor it
    has written is the banner and a marshalled [meta] in which a relation
    is in the section of a role (provides, requires, peers) exactly if it
    is an introspected relation of that role: the sections are made from
    the introspected relations alone, whatever the base descriptor holds.
    A relation of any other role makes [writeMeta] fail with the world as
    it was, so that it writes nothing; and a build whose introspection
    reports such a relation fails. *)
Theorem writeMeta_files_relations_by_role b
    (relations : gmap string Relation) w :
  (forall w',
     writeMeta b relations w = (Ok tt, w') ->
     exists meta data,
       Marshal (OfMeta meta) = inr data
       /\ OS.ReadFile (metaPath b) (fs w') = inr (yamlAutogenComment +:+ data)
       /\ forall role, knownRole role = true ->
          forall name rel,
            sectionOf role meta !! name = Some rel
            <-> relations !! name = Some rel /\ Role rel = role)
  /\ (forall name rel,
        relations !! name = Some rel -> knownRole (Role rel) = false ->
        exists e, writeMeta b relations w = (Err e, w))
  /\ ((forall f info,
         (registeredCharmInfo (ImportPath (pkg b)) (tempDir b) f).1 = inr info ->
         exists name rel,
           Relations info !! name = Some rel /\ knownRole (Role rel) = false) ->
      exists e, (buildCharm b w).1 = Err e).
Proof.
  split; [|split].
  - intros w' Hok.
    apply writeMeta_Ok in Hok
      as (content & base & meta & data & _ & _ & Hd & Hr & _ & _ & Hsec).
    by exists meta, data.
  - intros name rel. apply writeMeta_unknown_role.
  - intros Hbad. unfold buildCharm.
    unfold bind at 1. unfold onError at 1.
    pose proof (compile_noPanic
                  (Filepath.Join [charmDir b; "src"; "runhook"; "runhook.go"])
                  (if source b then Filepath.Join [tempDir b; "runhook"]
                   else Filepath.Join [charmDir b; "bin"; "runhook"])
                  (generateCode (ImportPath (pkg b))) true w) as Hnp.
    destruct (compile _ _ _ _ w) as [[[]|e|msg] w1];
      [|by eexists|by destruct (Hnp msg)].
    unfold bind at 1.
    destruct (OS.Stat (fs w1) _); [|by eexists].
    unfold bind at 1. unfold onError at 1.
    specialize (Hbad (fs w1)).
    destruct (registeredCharmInfo _ _ (fs w1)) as [[e|info] f2];
      [by eexists|]. simpl.
    destruct (Hbad info eq_refl) as (name & rel & Hin & Hrole).
    unfold bind at 1. unfold onError at 1.
    pose proof (noPanic_writeHooks b (Hooks info) (withFS w1 f2)) as Hnp2.
    destruct (writeHooks b (Hooks info) _) as [[[]|e|msg] w3];
      [|by eexists|by destruct (Hnp2 msg)].
    unfold bind at 1. unfold onError at 1.
    destruct (writeMeta_unknown_role b _ w3 _ _ Hin Hrole) as [e ->].
    by eexists.
Qed.


End BuildCharm.

(** ** The hook stubs *)

Lemma lines_app (a b : list string) : lines (a ++ b) = lines a +:+ lines b.
Proof.
  induction a as [|l a IH]; [done|]. simpl.
  by rewrite IH, !app_assoc_string.
Qed.

(** The script [hookStubScript] is the text of the template. *)
Lemma renderScript_hookStubScript (p : hookStubParams) :
  renderScript (hookStubScript p) = hookStubTemplate p.
Proof.
  unfold renderScript, hookStubScript, hookStubTemplate.
  rewrite !map_app, !concat_app, !lines_app.
  f_equal. f_equal.
  destruct (String.eqb (HookName p) "install"); [reflexivity|].
  destruct (Source p); reflexivity.
Qed.

(** The text of every stub ends in the line that runs the executable of
    the bundle for the hook. *)
Lemma hookStubTemplate_last_line (p : hookStubParams) :
  exists text,
    hookStubTemplate p = text +:+ lines [""; runhookLine (HookName p)].
Proof. unfold hookStubTemplate. rewrite <- app_assoc_string. by eexists. Qed.

(** A stub of a hook other than install that exits with status 0 has run
    the executable of the bundle for the hook as its last command. *)
Lemma hookStubScript_runs_hook (p : hookStubParams) (h : shellHost) :
  String.eqb (HookName p) "install" = false ->
  (execScript h (hookStubScript p)).2 = 0 ->
  last (execScript h (hookStubScript p)).1 = Some (runhookLine (HookName p)).
Proof.
  intros Hname. unfold hookStubScript. rewrite Hname.
  fold (runhookLine (HookName p)).
  destruct (Source p); simpl.
  - destruct (testE h "$CHARM_DIR/compile-always"); simpl.
    + destruct (exitStatus h _ =? 0) eqn:E1; simpl;
        [|intros E; by rewrite E in E1].
      destruct (exitStatus h (runhookLine _) =? 0) eqn:E2; simpl; [done|].
      intros E. by rewrite E in E2.
    + destruct (exitStatus h (runhookLine _) =? 0) eqn:E2; simpl; [done|].
      intros E. by rewrite E in E2.
  - destruct (exitStatus h (runhookLine _) =? 0) eqn:E2; simpl; [done|].
    intros E. by rewrite E in E2.
Qed.

(** C3 at the install hook: on a unit where the executable is in place,
    as it is in every bundle built without vendoring, the install stub
    installs the packages and exits with status 0; the executable of the
    bundle is not run for the hook. *)
Theorem install_stub_exits_before_runhook :
  let b := Scenario.request "/charms/trusty/wordpress" false in
  let p := {| Source := false; HookName := "install"; GodepPath := godepPath |} in
  let unit := {| testE := fun path => String.eqb path "$CHARM_DIR/bin/runhook";
                 exitStatus := fun _ => 0 |} in
  renderScript (hookStubScript p) = hookStub b "install"
  /\ execScript unit (hookStubScript p)
     = (["apt-get '--option=Dpkg::Options::=--force-confold'  '--option=Dpkg::options::=--force-unsafe-io' --assume-yes --quiet install golang git mercurial"],
        0)
  /\ runhookLine "install" ∉ (execScript unit (hookStubScript p)).1.
Proof.
  split; [reflexivity|]. split; [reflexivity|].
  by_evaluation.
Qed.

(** ** The pipeline on the host of the scenario *)

(** C2 at a bundle directory named otherwise than the package directory:
    the descriptor written to [/charms/trusty/blog] declares the name
    [wordpress], the base name of the package directory, not [blog]. *)
Theorem writeMeta_name_is_package_dir_base :
  let h := Scenario.host Scenario.info true in
  let b := Scenario.request "/charms/trusty/blog" false in
  let r := @writeMeta h b (Relations Scenario.info) Scenario.blogWorld in
  r.1 = Ok tt
  /\ OS.ReadFile (metaPath b) (fs r.2)
     = inr (yamlAutogenComment
            +:+ lines ["name: wordpress"; "provides: db"; "requires: "; "peers: "])
  /\ Filepath.Base (charmDir b) = "blog"
  /\ Filepath.Base (PkgDir (pkg b)) = "wordpress".
Proof. repeat split; vm_compute; reflexivity. Qed.

(** C4, as stated, fails: a build whose introspection reports a relation
    of the role [consumer] fails, and by then the source file of the
    executable, the executable and the hook stubs have been written. *)
Lemma buildCharm_unknown_role_after_files_written :
  let h := Scenario.host Scenario.infoBadRole true in
  let b := Scenario.request "/charms/trusty/wordpress" false in
  let r := @buildCharm h b Scenario.world in
  r.1 = Err (ErrWrap "cannot write metadata.yaml"
               (ErrNew ("unknown role " +:+ dq +:+ "consumer" +:+ dq
                        +:+ " in relation")))
  /\ fs Scenario.world !! hookPath b "install" = None
  /\ fs r.2 !! hookPath b "install" = Some (File (hookStub b "install") perm0755)
  /\ fs Scenario.world !! goFilePath b = None
  /\ is_Some (fs r.2 !! goFilePath b)
  /\ is_Some (fs r.2 !! binRunhook b)
  /\ fs r.2 !! metaPath b = None.
Proof.
  repeat split; try (vm_compute; reflexivity); vm_compute; by eexists.
Qed.

Lemma writeMeta_files_relations_by_role_witness :
  let h := Scenario.host Scenario.infoBadRole true in
  let b := Scenario.request "/charms/trusty/blog" false in
  Relations Scenario.infoBadRole !! "cache"
  = Some (Scenario.relation "cache" "consumer" "memcache")
  /\ knownRole "consumer" = false
  /\ exists e,
       @writeMeta h b (Relations Scenario.infoBadRole) Scenario.blogWorld
       = (Err e, Scenario.blogWorld).
Proof.
  intros h b.
  assert (Relations Scenario.infoBadRole !! "cache"
          = Some (Scenario.relation "cache" "consumer" "memcache")) as Hin
    by (vm_compute; reflexivity).
  split; [exact Hin|]. split; [reflexivity|].
  exact (proj1 (proj2 (@writeMeta_files_relations_by_role h b
                         (Relations Scenario.infoBadRole) Scenario.blogWorld))
           "cache" _ Hin eq_refl).
Defined.



(** C6 at a process environment that turns cgo on: the toolchain is handed
    [GOOS=linux] and [GOARCH=amd64], and a variable [CGOENABLED] that it
    does not read; the [CGO_ENABLED] it does read is still [1], so cgo is
    not turned off. *)
Theorem compile_leaves_cgo_enabled :
  let h := Scenario.host Scenario.info true in
  let r := @compile h "/charms/trusty/wordpress/src/runhook/runhook.go"
             "/charms/trusty/wordpress/bin/runhook" "package main" true
             Scenario.world in
  let env := ["PATH=/usr/bin"; "GOPATH=/go"; "CGO_ENABLED=1";
              "CGOENABLED=false"; "GOARCH=amd64"; "GOOS=linux"] in
  environ Scenario.world = ["PATH=/usr/bin"; "GOPATH=/go"; "CGO_ENABLED=1"]
  /\ r.1 = Ok tt
  /\ started r.2
     = [goBuild env "/charms/trusty/wordpress/bin/runhook"
          "/charms/trusty/wordpress/src/runhook/runhook.go"]
  /\ targetOS env = Some "linux"
  /\ targetArch env = Some "amd64"
  /\ cgoSetting env = Some "1"
  /\ cgoDisabled env = false.
Proof. repeat split; vm_compute; reflexivity. Qed.


(** * Further properties of gocharm.go *)

(** ** setenv *)

(** X1. After [setenv] has set an entry [key=value], with a key that holds
    no [=], looking the key up in the list it returns gives the value,
    whatever the list held for the key before. *)
Theorem setenv_then_lookup (env l : list string) (key value : string) :
  "="%char ∉ chars key ->
  setenv env (key +:+ "=" +:+ value) = Ok l ->
  lookupEnv l key = Some value.
Proof.
  intros Hk. rewrite setenv_key by done. intros Hs.
  pose proof (entry_startsWith key value) as Hentry.
  unfold lookupEnv. fold (startsWith key).
  assert (exists i, list_find (startsWith key) l
                    = Some (i, key +:+ "=" +:+ value)) as [i ->].
  { destruct (list_find (startsWith key) env) as [[i old]|] eqn:E;
      injection Hs as <-.
    - exists i. by eapply list_find_insert_first.
    - exists (length env). by apply list_find_snoc_first. }
  f_equal. unfold Strings.SliceFrom, Strings.Slice.
  rewrite <- app_assoc_string.
  replace (Z.to_nat (Z.of_nat (String.length key) + 1))
    with (String.length (key +:+ "="))
    by (rewrite length_app_string; simpl; lia).
  replace (Z.to_nat _) with (String.length value)
    by (rewrite !length_app_string; simpl; lia).
  apply substring_suffix.
Qed.

Lemma setenv_then_lookup_witness :
  ("="%char ∉ chars "GOPATH")
  /\ setenv ["GOPATH=/old"; "HOME=/root"] ("GOPATH" +:+ "=" +:+ "/go")
     = Ok ["GOPATH=/go"; "HOME=/root"]
  /\ lookupEnv ["GOPATH=/go"; "HOME=/root"] "GOPATH" = Some "/go".
Proof.
  assert ("="%char ∉ chars "GOPATH") as Hk by by_evaluation.
  assert (setenv ["GOPATH=/old"; "HOME=/root"] ("GOPATH" +:+ "=" +:+ "/go")
          = Ok ["GOPATH=/go"; "HOME=/root"]) as Hs by reflexivity.
  split; [exact Hk|]. split; [exact Hs|].
  exact (setenv_then_lookup _ _ "GOPATH" "/go" Hk Hs).
Defined.

(** X2. [setenv] changes the value of no other variable: for two different
    keys that hold no [=], looking the second up after the first was set
    gives what it gave before. *)
Theorem setenv_keeps_other_variables (env l : list string)
    (key value key' : string) :
  "="%char ∉ chars key -> "="%char ∉ chars key' -> key <> key' ->
  setenv env (key +:+ "=" +:+ value) = Ok l ->
  lookupEnv l key' = lookupEnv env key'.
Proof.
  intros Hk Hk' Hne. rewrite setenv_key by done. intros Hs.
  assert (forall e, startsWith key e -> ~ startsWith key' e) as Hother.
  { intros e He He'. apply Hne. by eapply startsWith_inj. }
  pose proof (Hother _ (entry_startsWith key value)) as Hentry.
  unfold lookupEnv. fold (startsWith key').
  destruct (list_find (startsWith key) env) as [[i old]|] eqn:E;
    injection Hs as <-.
  - apply list_find_Some in E as (Hi & Hold & _).
    by erewrite list_find_insert_rejected; [|done|apply Hother|].
  - by rewrite list_find_snoc_rejected.
Qed.

Lemma setenv_keeps_other_variables_witness :
  ("="%char ∉ chars "GOOS") /\ ("="%char ∉ chars "GO")
  /\ "GOOS" <> "GO"
  /\ lookupEnv ["GO=1"; "GOOS=linux"] "GO" = lookupEnv ["GO=1"] "GO".
Proof.
  assert ("="%char ∉ chars "GOOS") as Hk by by_evaluation.
  assert ("="%char ∉ chars "GO") as Hk' by by_evaluation.
  assert ("GOOS" <> "GO") as Hne by discriminate.
  split; [exact Hk|]. split; [exact Hk'|]. split; [exact Hne|].
  exact (setenv_keeps_other_variables ["GO=1"] _ "GOOS" "linux" "GO"
           Hk Hk' Hne eq_refl).
Defined.

(** X3. Setting an entry a second time changes nothing: [setenv] on the
    list that [setenv] returned, with the same entry, returns that list. *)
Theorem setenv_idempotent (env l : list string) (entry : string) :
  setenv env entry = Ok l -> setenv l entry = Ok l.
Proof.
  destruct (Index_eq_cases entry) as [[Hi _]|(key & value & -> & Hk & _)].
  - unfold setenv. by rewrite Hi.
  - rewrite !setenv_key by done.
    destruct (list_find (startsWith key) env) as [[i old]|] eqn:E;
      intros [= <-].
    + rewrite (list_find_insert_first _ _ _ _ _ E (entry_startsWith key value)).
      by rewrite list_insert_insert_eq.
    + rewrite (list_find_snoc_first _ _ _ E (entry_startsWith key value)).
      f_equal. apply list_insert_id.
      by rewrite lookup_app_r, Nat.sub_diag.
Qed.

Lemma setenv_idempotent_witness :
  setenv ["PATH=/bin"] "GOOS=linux" = Ok ["PATH=/bin"; "GOOS=linux"]
  /\ setenv ["PATH=/bin"; "GOOS=linux"] "GOOS=linux"
     = Ok ["PATH=/bin"; "GOOS=linux"].
Proof.
  assert (setenv ["PATH=/bin"] "GOOS=linux" = Ok ["PATH=/bin"; "GOOS=linux"])
    as Hs by reflexivity.
  split; [exact Hs|]. exact (setenv_idempotent _ _ _ Hs).
Defined.

(** ** vendorDeps and compile *)

Section Commands.
Context `{Host}.

Implicit Types (b : charmBuilder) (w : World).

(** X4. When [git init] fails, [vendorDeps] returns that error under the
    message [cannot git init directory]; godep is not started, and the file
    system is left as git left it: nothing is removed. *)
Theorem vendorDeps_git_init_failure b w (e : error) :
  (run (gitInit b) (fs w)).1 = Some e ->
  vendorDeps b w
  = (Err (ErrWrap "cannot git init directory" e),
     {| fs := afterGitInit b w; environ := environ w;
        started := started w ++ [gitInit b] |}).
Proof.
  intros Hgit. rewrite vendorDeps_run. unfold afterGitInit.
  destruct (run (gitInit b) (fs w)) as [[e'|] f1]; simpl in *; [|done].
  by injection Hgit as ->.
Qed.

(** X5. When [git init] succeeds, [vendorDeps] starts two commands, git and
    then [godep save]; godep runs in the [src/runhook] directory of the
    bundle with [GOPATH] set to the [GOPATH] of the process (empty when it
    is not set), the list separator and the bundle directory, and with
    every other variable as the process has it. *)
Theorem vendorDeps_godep_environment b w :
  (run (gitInit b) (fs w)).1 = None ->
  exists c,
    started (vendorDeps b w).2 = started w ++ [gitInit b; c]
    /\ Args c = ["godep"; "save"] /\ Dir c = runhookDir b
    /\ lookupEnv (Env c) "GOPATH"
       = Some (default "" (lookupEnv (environ w) "GOPATH")
               +:+ ":" +:+ charmDir b)
    /\ forall key,
         "="%char ∉ chars key -> key <> "GOPATH" ->
         lookupEnv (Env c) key = lookupEnv (environ w) key.
Proof.
  intros Hgit. exists (godepSave b w). rewrite vendorDeps_run.
  destruct (run (gitInit b) (fs w)) as [[e|] f1]; [done|].
  destruct (run (godepSave b w) f1) as [r f2]. simpl.
  split; [by rewrite <- app_assoc|]. do 2 (split; [done|]).
  destruct (setenv_gopath b w) as [env Henv]. rewrite Henv.
  unfold gopathEntry in Henv.
  change ("GOPATH=" +:+ ?v) with ("GOPATH" +:+ "=" +:+ v) in Henv.
  assert ("="%char ∉ chars "GOPATH") as Hk by by_evaluation.
  split.
  - by eapply lookupEnv_setenv.
  - intros key Hkey Hne.
    eapply lookupEnv_setenv_other; [exact Hk|exact Hkey| |exact Henv].
    by intros <-.
Qed.

(** X6. [vendorDeps] succeeds exactly when [git init] and [godep save] both
    succeed; and once [git init] has succeeded, every path that is not at
    or below the [.git] directory is left as godep left it. *)
Theorem vendorDeps_succeeds_iff b w :
  ((vendorDeps b w).1 = Ok tt
   <-> (run (gitInit b) (fs w)).1 = None
       /\ (run (godepSave b w) (afterGitInit b w)).1 = None)
  /\ ((run (gitInit b) (fs w)).1 = None ->
      forall q,
        ~ Is_true (OS.under (gitDir b) q) ->
        fs (vendorDeps b w).2 !! q
        = (run (godepSave b w) (afterGitInit b w)).2 !! q).
Proof.
  rewrite vendorDeps_run. unfold afterGitInit.
  destruct (run (gitInit b) (fs w)) as [[e|] f1]; simpl.
  - split; [|done]. split; [done|]. by intros [? _].
  - destruct (run (godepSave b w) f1) as [[err|] f2]; simpl.
    + split.
      * split; [|by intros [_ ?]]. by destruct (isExecNotFound err).
      * intros _ q Hq. by apply RemoveAll_other.
    + split; [done|]. intros _ q Hq. by apply RemoveAll_other.
Qed.

(** X7. The commands that [compile] starts: none, or one [go build -o]
    with the executable and the source file as its arguments. Without
    cross compilation its environment is that of the process; with it,
    [GOOS] is [linux], [GOARCH] is [amd64], and every variable other than
    these two and [CGOENABLED] is as the process has it. *)
Theorem compile_toolchain_command (goFile exeFile mainCode : string)
    (crossCompile : bool) w :
  let w' := (compile goFile exeFile mainCode crossCompile w).2 in
  started w' = started w
  \/ exists c,
       started w' = started w ++ [c]
       /\ Args c = ["go"; "build"; "-o"; exeFile; goFile] /\ Dir c = ""
       /\ (crossCompile = false -> Env c = environ w)
       /\ (crossCompile = true ->
           targetOS (Env c) = Some "linux"
           /\ targetArch (Env c) = Some "amd64"
           /\ forall key,
                "="%char ∉ chars key ->
                key <> "GOOS" -> key <> "GOARCH" -> key <> "CGOENABLED" ->
                lookupEnv (Env c) key = lookupEnv (environ w) key).
Proof.
  intros w'.
  destruct (compile_started goFile exeFile mainCode crossCompile w)
    as [Hnone|Hone]; [by left|].
  right. eexists. split; [exact Hone|]. do 2 (split; [done|]). simpl. split.
  - by intros ->.
  - intros ->. destruct (toolchainEnv_cross (environ w)) as (? & ? & _ & ?).
    done.
Qed.

(** X8. [compile] starts the toolchain only after the source file has been
    written: either no command is started and the error is that of making
    a directory or of writing the file, or the toolchain runs on a file
    system in which the source file holds the given code, the file system
    it leaves is the one [compile] leaves, and [compile] returns success or
    the error of the toolchain under the message [failed to build]. *)
Theorem compile_builds_written_source (goFile exeFile mainCode : string)
    (crossCompile : bool) w :
  let r := compile goFile exeFile mainCode crossCompile w in
  let c := goBuild (toolchainEnv crossCompile (environ w)) exeFile goFile in
  (started r.2 = started w /\ exists e op path msg,
      r.1 = Err (Wrap e) /\ e = PathError op path msg)
  \/ (exists f3,
        OS.ReadFile goFile f3 = inr mainCode
        /\ started r.2 = started w ++ [c]
        /\ fs r.2 = (run c f3).2
        /\ r.1 = match (run c f3).1 with
                 | None => Ok tt
                 | Some e => Err (ErrWrap "failed to build" e)
                 end).
Proof.
  intros r c. subst r. rewrite compile_run.
  assert (forall dirs f e f',
            OS.mkdirEach dirs f = (Some e, f') ->
            exists op path msg, e = PathError op path msg) as Hmk.
  { induction dirs as [|d dirs IH]; intros f e f' Hm; simpl in Hm; [done|].
    destruct (OS.Stat f d) as [[? ?|]|]; [|by eapply IH..].
    injection Hm as <- _. by do 3 eexists. }
  destruct (OS.MkdirAll (Filepath.Dir goFile) _ _) as [[e|] f1] eqn:E1.
  { left. split; [done|]. destruct (Hmk _ _ _ _ E1) as (op & path & msg & ->).
    by do 4 eexists. }
  destruct (OS.MkdirAll (Filepath.Dir exeFile) _ _) as [[e|] f2] eqn:E2.
  { left. split; [done|]. destruct (Hmk _ _ _ _ E2) as (op & path & msg & ->).
    by do 4 eexists. }
  destruct (OS.WriteFile _ _ _ _) as [[e|] f3] eqn:E3.
  { left. split; [done|]. unfold OS.WriteFile in E3.
    destruct (OS.Stat f2 goFile) as [[? ?|]|]; [done|by simplify_eq; do 4 eexists|].
    destruct (OS.Stat f2 (Filepath.Dir goFile)) as [[? ?|]|];
      simplify_eq; by do 4 eexists. }
  right. exists f3. split; [|done].
  apply WriteFile_inv in E3 as [(_ & _ & p' & -> & _)|(? & [=] & _)].
  unfold OS.ReadFile, OS.Stat. by rewrite lookup_insert_eq.
Qed.

End Commands.

Lemma vendorDeps_git_init_failure_witness :
  let h := Scenario.bareHost in
  let b := Scenario.request "/charms/trusty/blog" true in
  let w := Scenario.blogWorld in
  (@run h (@gitInit b) (fs w)).1 = Some (ExecError "git" ErrNotFound)
  /\ (@vendorDeps h b w).1
     = Err (ErrWrap "cannot git init directory" (ExecError "git" ErrNotFound))
  /\ started (@vendorDeps h b w).2 = [@gitInit b].
Proof.
  intros h b w.
  assert ((@run h (@gitInit b) (fs w)).1 = Some (ExecError "git" ErrNotFound))
    as Hgit by reflexivity.
  split; [exact Hgit|].
  rewrite (@vendorDeps_git_init_failure h b w _ Hgit). split; reflexivity.
Defined.

Lemma vendorDeps_godep_environment_witness :
  let h := Scenario.host Scenario.info true in
  let b := Scenario.request "/charms/trusty/blog" true in
  let w := Scenario.blogWorld in
  (@run h (@gitInit b) (fs w)).1 = None
  /\ exists c,
       started (@vendorDeps h b w).2 = [@gitInit b; c]
       /\ lookupEnv (Env c) "GOPATH" = Some "/go:/charms/trusty/blog".
Proof.
  intros h b w.
  assert ((@run h (@gitInit b) (fs w)).1 = None) as Hgit by reflexivity.
  split; [exact Hgit|].
  destruct (@vendorDeps_godep_environment h b w Hgit)
    as (c & Hstarted & _ & _ & Hgopath & _).
  exists c. split; [exact Hstarted|exact Hgopath].
Defined.

Lemma vendorDeps_succeeds_iff_witness :
  let h := Scenario.host Scenario.info true in
  let b := Scenario.request "/charms/trusty/blog" true in
  let w := Scenario.blogWorld in
  (@run h (@gitInit b) (fs w)).1 = None
  /\ (@run h (@godepSave b w) (@afterGitInit h b w)).1 = None
  /\ (@vendorDeps h b w).1 = Ok tt.
Proof.
  intros h b w.
  assert ((@run h (@gitInit b) (fs w)).1 = None) as Hgit by reflexivity.
  assert ((@run h (@godepSave b w) (@afterGitInit h b w)).1 = None) as Hgodep
    by reflexivity.
  split; [exact Hgit|]. split; [exact Hgodep|].
  exact (proj2 (proj1 (@vendorDeps_succeeds_iff h b w)) (conj Hgit Hgodep)).
Defined.

Lemma compile_toolchain_command_witness :
  let h := Scenario.host Scenario.info true in
  let w := Scenario.blogWorld in
  let w' := (@compile h "/charms/trusty/blog/src/runhook/runhook.go"
               "/tmp/runhook" "package main" true w).2 in
  exists c,
       started w' = [c] /\ targetOS (Env c) = Some "linux"
       /\ targetArch (Env c) = Some "amd64"
       /\ lookupEnv (Env c) "GOPATH" = Some "/go".
Proof.
  intros h w w'.
  destruct (@compile_toolchain_command h
              "/charms/trusty/blog/src/runhook/runhook.go" "/tmp/runhook"
              "package main" true w)
    as [Hnone|(c & Hone & _ & _ & _ & Hcross)].
  - vm_compute in Hnone. discriminate Hnone.
  - destruct (Hcross eq_refl) as (Hos & Harch & Hrest).
    exists c. split; [exact Hone|]. split; [exact Hos|]. split; [exact Harch|].
    rewrite (Hrest "GOPATH"); [reflexivity|by_evaluation|discriminate..].
Defined.

(** ** writeHooks: the permission bits of the hook files *)

Section HookFiles.

Implicit Types (f : filesystem) (files : list (string * string)).





End HookFiles.


(** ** The hook stubs as scripts *)

(** X10. A stub of a hook other than install that exits with status 0 has
    run, in this order: the compile script, if the bundle has vendored
    sources and the file [compile-always] exists; then the executable of
    the bundle with the name of the hook; and nothing else. *)
Theorem hook_stub_successful_run (p : hookStubParams) (h : shellHost) :
  String.eqb (HookName p) "install" = false ->
  (execScript h (hookStubScript p)).2 = 0 ->
  (execScript h (hookStubScript p)).1
  = (if Source p && testE h "$CHARM_DIR/compile-always"
     then [compileLine] else [])
    ++ [runhookLine (HookName p)].
Proof.
  intros Hname. unfold hookStubScript. rewrite Hname.
  fold (runhookLine (HookName p)) compileLine.
  destruct (Source p); simpl.
  - destruct (testE h "$CHARM_DIR/compile-always"); simpl.
    + destruct (exitStatus h compileLine =? 0) eqn:E1; simpl;
        [|intros E; by rewrite E in E1].
      by destruct (exitStatus h (runhookLine _) =? 0).
    + by destruct (exitStatus h (runhookLine _) =? 0).
  - by destruct (exitStatus h (runhookLine _) =? 0).
Qed.

Lemma hook_stub_successful_run_witness :
  let p := {| Source := true; HookName := "start"; GodepPath := godepPath |} in
  let unit := {| testE := fun _ => true; exitStatus := fun _ => 0 |} in
  String.eqb (HookName p) "install" = false
  /\ (execScript unit (hookStubScript p)).2 = 0
  /\ (execScript unit (hookStubScript p)).1 = [compileLine; runhookLine "start"].
Proof.
  intros p unit. split; [reflexivity|]. split; [reflexivity|].
  exact (hook_stub_successful_run p unit eq_refl eq_refl).
Defined.

(** Deciding the commands of a stub one after the other. *)
Ltac stub_cases h :=
  repeat match goal with
    | |- context [exitStatus h ?line =? 0] =>
        let E := fresh "E" in
        destruct (exitStatus h line =? 0) eqn:E; simpl;
        [apply Z.eqb_eq in E|apply Z.eqb_neq in E]
    end.

(** X11. Every stub stops at the first command that fails: it exits with
    status 0 exactly if every command that it has run has exited with
    status 0. *)
Theorem hook_stub_fails_fast (p : hookStubParams) (h : shellHost) :
  (execScript h (hookStubScript p)).2 = 0
  <-> allSucceeded h (execScript h (hookStubScript p)).1.
Proof.
  unfold hookStubScript, allSucceeded.
  destruct (String.eqb (HookName p) "install"); [|destruct (Source p)];
    simpl; repeat (destruct (testE h _); simpl); stub_cases h;
    (split; [intros Hst; try done; repeat constructor; done
            |intros Hall; try done;
             repeat match goal with
               | Hf : Forall _ (_ :: _) |- _ =>
                   apply Forall_cons in Hf as [? Hf]
               end; done]).
Qed.

(** X12. An install stub that exits with status 0 has either found the
    executable in place and run nothing but the installation of the
    packages, or it has run the installation of the packages, [go get] of
    godep, the compile script, and the executable of the bundle for the
    install hook twice. *)
Theorem install_stub_successful_run (p : hookStubParams) (h : shellHost) :
  String.eqb (HookName p) "install" = true ->
  (execScript h (hookStubScript p)).2 = 0 ->
  (execScript h (hookStubScript p)).1
  = if testE h "$CHARM_DIR/bin/runhook" then [aptGetLine]
    else [aptGetLine; "go get " +:+ GodepPath p; compileLine;
          quotedRunhookInstall; runhookLine (HookName p)].
Proof.
  intros Hname. unfold hookStubScript. rewrite Hname.
  fold (runhookLine (HookName p)) compileLine quotedRunhookInstall aptGetLine.
  simpl. destruct (testE h "$CHARM_DIR/bin/runhook"); simpl; stub_cases h;
    intros Hst; done.
Qed.

Lemma install_stub_successful_run_witness :
  let p := {| Source := true; HookName := "install"; GodepPath := godepPath |} in
  let unit := {| testE := fun _ => false; exitStatus := fun _ => 0 |} in
  String.eqb (HookName p) "install" = true
  /\ (execScript unit (hookStubScript p)).2 = 0
  /\ (execScript unit (hookStubScript p)).1
     = [aptGetLine; "go get github.com/tools/godep"; compileLine;
        quotedRunhookInstall; runhookLine "install"].
Proof.
  intros p unit. split; [reflexivity|]. split; [reflexivity|].
  exact (install_stub_successful_run p unit eq_refl eq_refl).
Defined.

Lemma hook_stub_fails_fast_witness :
  let p := {| Source := true; HookName := "start"; GodepPath := godepPath |} in
  let unit := {| testE := fun _ => true;
                 exitStatus := fun line =>
                   if String.eqb line compileLine then 2 else 0 |} in
  ~ allSucceeded unit (execScript unit (hookStubScript p)).1
  /\ (execScript unit (hookStubScript p)).2 <> 0.
Proof.
  intros p unit.
  assert ((execScript unit (hookStubScript p)).2 <> 0) as Hst
    by (vm_compute; discriminate).
  split; [|exact Hst].
  intros Hall. exact (Hst (proj2 (hook_stub_fails_fast p unit) Hall)).
Defined.

(** ** writeYAML and writeMeta *)

Section MoreDescriptors.
Context `{Host}.

Implicit Types (b : charmBuilder) (w : World).


(** The loop over the relations keeps the name and the description of the
    descriptor. *)
Lemma fileRelations_description rels meta meta' :
  fileRelations rels meta = Ok meta' ->
  Name meta' = Name meta /\ sameDescription meta' meta.
Proof.
  revert meta. induction rels as [|[name rel] rels IH]; intros meta Hok.
  - injection Hok as <-. by repeat split.
  - simpl in Hok.
    repeat match type of Hok with
           | (if ?c then _ else _) = _ => destruct c
           end; [..|done];
      apply IH in Hok as [Hname Hdesc]; (split; [done|]);
      unfold sameDescription in *; simpl in *; done.
Qed.

Lemma Meta_eq (m m' : Meta) :
  Name m = Name m' -> sameDescription m m' ->
  Provides m = Provides m' -> Requires m = Requires m' -> Peers m = Peers m' ->
  m = m'.
Proof.
  destruct m, m'. unfold sameDescription. simpl.
  intros -> (-> & -> & -> & -> & -> & -> & ->) -> -> ->. done.
Qed.

(** X14. The descriptor that the loop of [writeMeta] builds does not depend
    on the order in which the relations are visited: for relations of
    distinct names, visited in two orders from emptied sections, the loop
    returns the same descriptor, or fails in both orders. *)
Theorem fileRelations_order_independent
    (rels rels' : list (string * Relation)) (base : Meta) :
  rels ≡ₚ rels' -> NoDup rels.*1 ->
  (forall meta,
     fileRelations rels (withRelations base ∅ ∅ ∅) = Ok meta ->
     fileRelations rels' (withRelations base ∅ ∅ ∅) = Ok meta)
  /\ ((exists e, fileRelations rels (withRelations base ∅ ∅ ∅) = Err e) ->
      exists e', fileRelations rels' (withRelations base ∅ ∅ ∅) = Err e').
Proof.
  intros Hperm Hnd.
  assert (NoDup rels'.*1) as Hnd' by (by rewrite <- Hperm).
  set (start := withRelations base ∅ ∅ ∅).
  assert (forall role name, knownRole role = true ->
            sectionOf role start !! name = None) as Hempty.
  { intros role name _. unfold start.
    by rewrite sectionOf_emptied, lookup_empty. }
  split.
  - intros meta Hok.
    destruct (fileRelations_outcome rels start) as [[_ [e He]]|[Hall _]];
      [congruence|].
    destruct (fileRelations_outcome rels' start)
      as [[(n & r & Hin & Hr) _]|[_ [meta' Hok']]].
    { rewrite Forall_forall in Hall. rewrite <- Hperm in Hin.
      specialize (Hall _ Hin). simpl in Hall. congruence. }
    rewrite Hok'. f_equal.
    destruct (fileRelations_description _ _ _ Hok) as [Hn Hd].
    destruct (fileRelations_description _ _ _ Hok') as [Hn' Hd'].
    apply fileRelations_sections in Hok as [_ Hsec]; [|done|by auto].
    apply fileRelations_sections in Hok' as [_ Hsec']; [|done|by auto].
    assert (forall role, knownRole role = true ->
              sectionOf role meta' = sectionOf role meta) as Hsame.
    { intros role Hrole. apply map_eq. intros name. apply option_eq.
      intros rel. rewrite (Hsec role Hrole), (Hsec' role Hrole).
      by rewrite Hperm. }
    apply Meta_eq.
    + congruence.
    + unfold sameDescription in *. intuition congruence.
    + apply (Hsame RoleProvider eq_refl).
    + apply (Hsame RoleRequirer eq_refl).
    + apply (Hsame RolePeer eq_refl).
  - intros [e He].
    destruct (fileRelations_outcome rels start)
      as [[(n & r & Hin & Hr) _]|[_ [meta Hok]]]; [|congruence].
    destruct (fileRelations_outcome rels' start) as [[_ ?]|[Hall _]]; [done|].
    rewrite Forall_forall in Hall. rewrite Hperm in Hin.
    specialize (Hall _ Hin). simpl in Hall. congruence.
Qed.

(** X15. The descriptor that a successful [writeMeta] writes is the base
    descriptor of the package with the name replaced by the base name of
    the source directory of the package and with new relation sections:
    summary, description, subordinate flag, format, revision, categories
    and series are those of the base descriptor. *)
Theorem writeMeta_keeps_description b (relations : gmap string Relation)
    w w' :
  writeMeta b relations w = (Ok tt, w') ->
  exists content base meta data,
    OS.ReadFile (pkgMetaPath b) (fs w) = inr content
    /\ ReadMeta content = inr base
    /\ Marshal (OfMeta meta) = inr data
    /\ OS.ReadFile (metaPath b) (fs w') = inr (yamlAutogenComment +:+ data)
    /\ Name meta = Filepath.Base (PkgDir (pkg b))
    /\ sameDescription meta base.
Proof.
  rewrite writeMeta_run.
  destruct (OS.ReadFile _ _) as [e|content] eqn:Ec; [done|].
  destruct (ReadMeta content) as [e|base] eqn:Eb; [done|].
  destruct (fileRelations _ _) as [meta|e|msg] eqn:Ef; [|done|done].
  unfold onError.
  destruct (writeYAML _ _ w) as [[[]|e|msg] w1] eqn:Ey; [|done|done].
  intros [= <-].
  apply writeYAML_Ok in Ey as (data & Hdata & Hread & _).
  apply fileRelations_description in Ef as [Hname Hdesc].
  exists content, base, meta, data.
  do 4 (split; [done|]). split; [exact Hname|]. exact Hdesc.
Qed.


End MoreDescriptors.

(** ** The paths of the descriptors *)

Section Paths.

Lemma SplitAcc_app (sep : ascii) (cur c x : string) :
  Strings.SplitAcc sep cur (c +:+ String sep x)
  = Strings.SplitAcc sep cur c ++ Strings.SplitAcc sep EmptyString x.
Proof.
  revert cur. induction c as [|a c IH]; intros cur; sapp; simpl.
  - by rewrite Ascii.eqb_refl.
  - destruct (Ascii.eqb a sep); [|by rewrite IH]. by rewrite IH.
Qed.

Lemma Join_snoc (l : list string) (x sep : string) :
  exists q, Strings.Join (l ++ [x]) sep = q +:+ x.
Proof.
  induction l as [|e l [q IH]]; [by exists ""|].
  destruct l as [|e' l].
  - exists (e +:+ sep). simpl. by rewrite app_assoc_string.
  - exists (e +:+ sep +:+ q). simpl in *. rewrite IH.
    by rewrite !app_assoc_string.
Qed.

(** The path of a plain file name in a directory ends in the name. *)
Lemma Join_plainName (c x : string) :
  plainName x -> exists q, Filepath.Join [c; x] = q +:+ x.
Proof.
  intros (Hsplit & Hne & Hdot & Hdots).
  assert (forall r out, Filepath.cleanStep r out x = x :: out) as Hstep.
  { intros r out. unfold Filepath.cleanStep. by rewrite Hne, Hdot, Hdots. }
  assert (forall q, String.eqb (q +:+ x) "" = false) as Hbody.
  { intros [|a q]; [done|]. by sapp. }
  unfold Filepath.Join. destruct (String.eqb c "") eqn:Ec.
  - rewrite Hne. simpl. unfold Filepath.Clean. rewrite Hne, Hsplit. simpl.
    rewrite Hstep. simpl. destruct (Filepath.rooted x); [by exists "/"|].
    rewrite Hne. by exists "".
  - simpl. unfold Filepath.Clean.
    assert (String.eqb (c +:+ "/" +:+ x) "" = false) as ->.
    { destruct c as [|a c]; [done|]. by sapp. }
    unfold Strings.Split. change ("/" +:+ x) with (String "/" x).
    unfold Filepath.Separator in *.
    rewrite SplitAcc_app. unfold Strings.Split in Hsplit.
    rewrite Hsplit, fold_left_app. simpl. rewrite Hstep. simpl.
    destruct (Join_snoc (rev (fold_left
                (Filepath.cleanStep (Filepath.rooted (c +:+ String "/" x)))
                (Strings.SplitAcc "/" "" c) [])) x "/")
      as [q ->].
    destruct (Filepath.rooted _).
    + exists ("/" +:+ q). by rewrite app_assoc_string.
    + rewrite Hbody. by exists q.
Qed.

Lemma chars_app (a b : string) : chars (a +:+ b) = chars a ++ chars b.
Proof.
  unfold chars. induction a as [|x a IH]; [done|]. sapp. simpl.
  by rewrite IH.
Qed.

End Paths.

(** The two descriptors of a bundle are different files. *)
Lemma metaPath_configPath (b : charmBuilder) : metaPath b <> configPath b.
Proof.
  unfold metaPath, configPath.
  destruct (Join_plainName (charmDir b) "metadata.yaml") as [q ->];
    [by repeat split|].
  destruct (Join_plainName (charmDir b) "config.yaml") as [q' ->];
    [by repeat split|].
  intros E. apply (f_equal chars) in E. rewrite !chars_app in E.
  apply (f_equal reverse) in E. rewrite !reverse_app in E.
  apply (f_equal (fun l => l !! 5%nat)) in E.
  rewrite !lookup_app_l in E by (vm_compute; lia).
  vm_compute in E. discriminate E.
Qed.

(** ** The build as a whole *)

Section Pipeline.
Context `{Host}.

Implicit Types (p : buildCharmParams) (w : World).

(** The stages of a successful build, one after the other. *)
Lemma buildCharm_Ok_inv p w w' :
  buildCharm p w = (Ok tt, w') ->
  exists w1 info f2 w3 w4 w5,
    compile (goFilePath p) (exePath p) (generateCode (ImportPath (pkg p)))
      true w = (Ok tt, w1)
    /\ is_Some (OS.Stat (fs w1) (exePath p))
    /\ registeredCharmInfo (ImportPath (pkg p)) (tempDir p) (fs w1)
       = (inr info, f2)
    /\ writeHooks p (Hooks info) (withFS w1 f2) = (Ok tt, w3)
    /\ writeMeta p (Relations info) w3 = (Ok tt, w4)
    /\ writeConfig p (ConfigOptions info) w4 = (Ok tt, w5)
    /\ ReadCharmDir (charmDir p) (fs w5) = None
    /\ if source p then
         exists w6,
           vendorDeps p w5 = (Ok tt, w6)
           /\ OS.WriteFile (compilePath p) compileScript perm0755 (fs w6)
              = (None, fs w')
       else w' = w5.
Proof.
  unfold buildCharm.
  fold (goFilePath p) (binRunhook p) (exePath p) (compilePath p).
  unfold bind at 1. unfold onError at 1.
  destruct (compile _ _ _ _ w) as [[[]|e|msg] w1] eqn:Ec; [|done..].
  unfold bind at 1.
  destruct (OS.Stat (fs w1) (exePath p)) as [n|] eqn:Es; [|done].
  unfold bind at 1. unfold onError at 1.
  destruct (registeredCharmInfo _ _ (fs w1)) as [[e|info] f2] eqn:Ep; [done|].
  simpl.
  unfold bind at 1. unfold onError at 1.
  destruct (writeHooks p (Hooks info) _) as [[[]|e|msg] w3] eqn:Eh; [|done..].
  unfold bind at 1. unfold onError at 1.
  destruct (writeMeta p (Relations info) w3) as [[[]|e|msg] w4] eqn:Em;
    [|done..].
  unfold bind at 1. unfold onError at 1.
  destruct (writeConfig p (ConfigOptions info) w4) as [[[]|e|msg] w5] eqn:Eg;
    [|done..].
  unfold bind at 1. unfold onError at 1.
  destruct (ReadCharmDir (charmDir p) (fs w5)) as [e|] eqn:Er; [done|].
  intros Hrest. exists w1, info, f2, w3, w4, w5.
  split; [done|]. split; [by rewrite Es|]. do 5 (split; [done|]).
  destruct (source p); [|by injection Hrest as <-].
  unfold bind at 1 in Hrest. unfold onError at 1 in Hrest.
  destruct (vendorDeps p w5) as [[[]|e|msg] w6] eqn:Ev; [|done..].
  exists w6. split; [done|].
  unfold onError, liftFS in Hrest.
  destruct (OS.WriteFile _ _ _ _) as [[e|] f7]; [done|].
  by injection Hrest as <-.
Qed.








(** X18. [buildCharm] stops at the executable. An error of [compile] is
    returned under the message [cannot build hooks main package]; when
    [compile] succeeds and the executable is not where it was to be built,
    the error is [runhook command not built]. In both cases the world is
    as [compile] left it: the package is not introspected and no hook or
    descriptor is written. *)
Theorem buildCharm_stops_without_executable p w w1 :
  let built := compile (goFilePath p) (exePath p)
                 (generateCode (ImportPath (pkg p))) true w in
  (forall e,
     built = (Err e, w1) ->
     buildCharm p w
     = (Err (ErrWrap "cannot build hooks main package" e), w1))
  /\ (built = (Ok tt, w1) -> OS.Stat (fs w1) (exePath p) = None ->
      buildCharm p w = (Err (ErrNew "runhook command not built"), w1)).
Proof.
  intros built. subst built. unfold buildCharm, goFilePath, exePath, binRunhook.
  split.
  - intros e He. unfold bind at 1. unfold onError at 1. by rewrite He.
  - intros He Hs. unfold bind at 1. unfold onError at 1. rewrite He.
    unfold bind at 1. by rewrite Hs.
Qed.

(** What a successful [writeHooks] leaves at the path of a hook. *)
Lemma writeHooks_Ok_files p hooks w w' h :
  writeHooks p hooks w = (Ok tt, w') -> h ∈ hooks ->
  exists h' perm,
    h' ∈ hooks /\ hookPath p h' = hookPath p h
    /\ fs w' !! hookPath p h = Some (File (hookStub p h') perm).
Proof.
  intros Hok Hh. rewrite writeHooks_run in Hok.
  destruct (OS.MkdirAll _ _ _) as [[e|] f1]; [done|].
  destruct (OS.ReadDir _ _) as [e|infos]; [done|].
  rewrite writeHookFiles_run in Hok. simpl in Hok.
  destruct (writeEach _ _ f1) as [[e|] f2] eqn:Ew; simpl in Hok; [done|].
  injection Hok as <-.
  destruct (writeEach_written _ _ _ _ (hookPath p h) (hookStub p h) Ew)
    as (d' & perm' & Hin & Hl).
  { apply list_elem_of_fmap. by exists h. }
  apply list_elem_of_fmap in Hin as (h' & [= Hp ->] & Hh').
  exists h', perm'. by rewrite <- Hp.
Qed.

(** What a successful [writeConfig] changes. *)
Lemma writeConfig_Ok p (config : gmap string Option_) w w' :
  writeConfig p config w = (Ok tt, w') ->
  (forall q, q <> configPath p -> fs w' !! q = fs w !! q)
  /\ (config <> ∅ ->
      exists data,
        Marshal (OfConfig {| Options := config |}) = inr data
        /\ OS.ReadFile (configPath p) (fs w')
           = inr (yamlAutogenComment +:+ data)).
Proof.
  unfold writeConfig. fold (configPath p).
  destruct (size config =? 0)%nat eqn:Es.
  - intros [= <-]. split; [done|]. intros Hne.
    apply Nat.eqb_eq, map_size_empty_iff in Es. done.
  - unfold onError.
    destruct (writeYAML _ _ w) as [[[]|e|msg] w1] eqn:Ey; [|done..].
    intros [= <-].
    apply writeYAML_Ok in Ey as (data & Hd & Hr & Ho & _).
    split; [done|]. intros _. by exists data.
Qed.

(** X19. What a successful build without vendoring leaves in the bundle.
    The bundle has passed [charm.ReadCharmDir] as it is. Its metadata
    descriptor is the banner and a marshalled descriptor whose relation
    sections hold the introspected relations, each under its role. If the
    introspected config is not empty, its config descriptor is the banner
    and the marshalled config. And every introspected hook whose path is
    not that of a descriptor has its file, holding the stub of a hook of
    that path. *)
Theorem buildCharm_bundle p w w' :
  buildCharm p w = (Ok tt, w') -> source p = false ->
  exists info meta data,
    (exists f, (registeredCharmInfo (ImportPath (pkg p)) (tempDir p) f).1
               = inr info)
    /\ ReadCharmDir (charmDir p) (fs w') = None
    /\ Marshal (OfMeta meta) = inr data
    /\ OS.ReadFile (metaPath p) (fs w') = inr (yamlAutogenComment +:+ data)
    /\ (forall role, knownRole role = true ->
        forall name rel,
          sectionOf role meta !! name = Some rel
          <-> Relations info !! name = Some rel /\ Role rel = role)
    /\ (ConfigOptions info <> ∅ ->
        exists cdata,
          Marshal (OfConfig {| Options := ConfigOptions info |}) = inr cdata
          /\ OS.ReadFile (configPath p) (fs w')
             = inr (yamlAutogenComment +:+ cdata))
    /\ (forall h,
          h ∈ Hooks info ->
          hookPath p h <> metaPath p -> hookPath p h <> configPath p ->
          exists h' perm,
            h' ∈ Hooks info /\ hookPath p h' = hookPath p h
            /\ fs w' !! hookPath p h = Some (File (hookStub p h') perm)).
Proof.
  intros Hok Hsrc.
  apply buildCharm_Ok_inv in Hok
    as (w1 & info & f2 & w3 & w4 & w5 & _ & _ & Hp & Hh & Hm & Hg & Hr & Hend).
  rewrite Hsrc in Hend. subst w5.
  apply writeMeta_Ok in Hm
    as (content & base & meta & data & _ & _ & Hd & Hread & Hframe & _ & Hsec).
  apply writeConfig_Ok in Hg as [Hcframe Hconfig].
  exists info, meta, data. split.
  { exists (fs w1). by rewrite Hp. }
  split; [done|]. split; [done|]. split.
  { unfold OS.ReadFile, OS.Stat in *.
    by rewrite (Hcframe _ (metaPath_configPath p)). }
  split; [done|]. split; [done|].
  intros h Hin Hnm Hnc.
  destruct (writeHooks_Ok_files _ _ _ _ _ Hh Hin) as (h' & perm & Hin' & Hp' & Hl).
  exists h', perm. split; [done|]. split; [done|].
  by rewrite (Hcframe _ Hnc), (Hframe _ Hnm).
Qed.

(** X20. What a successful build with vendoring leaves in the bundle: the
    recompilation script, with the text of [compileScript]; and nothing at
    or below the [.git] directory of the embedded source tree (the path of
    the script apart). *)
Theorem buildCharm_vendoring_bundle p w w' :
  buildCharm p w = (Ok tt, w') -> source p = true ->
  OS.ReadFile (compilePath p) (fs w') = inr compileScript
  /\ forall q,
       Is_true (OS.under (gitDir p) q) -> q <> compilePath p ->
       fs w' !! q = None.
Proof.
  intros Hok Hsrc.
  apply buildCharm_Ok_inv in Hok
    as (w1 & info & f2 & w3 & w4 & w5 & _ & _ & _ & _ & _ & _ & _ & Hend).
  rewrite Hsrc in Hend. destruct Hend as (w6 & Hv & Hw).
  pose proof Hw as Hw'.
  apply WriteFile_inv in Hw as [(_ & _ & p' & -> & _)|(? & [=] & _)].
  split.
  - unfold OS.ReadFile, OS.Stat. by rewrite lookup_insert_eq.
  - intros q Hq Hne. rewrite lookup_insert_ne by done.
    rewrite vendorDeps_run in Hv.
    destruct (run (gitInit p) (fs w5)) as [[e|] f1]; [done|].
    destruct (run (godepSave p w5) f1) as [[err|] f3];
      [by destruct (isExecNotFound err)|].
    injection Hv as <-. by apply RemoveAll_gone.
Qed.

End Pipeline.

Lemma buildCharm_stops_without_executable_witness :
  let h := Scenario.bareHost in
  let p := Scenario.request "/charms/trusty/blog" false in
  let built := @compile h (goFilePath p) (exePath p)
                 (@generateCode h (ImportPath (pkg p))) true Scenario.world in
  built = (Err (ErrWrap "failed to build" (ExecError "go" ErrNotFound)), built.2)
  /\ @buildCharm h p Scenario.world
     = (Err (ErrWrap "cannot build hooks main package"
               (ErrWrap "failed to build" (ExecError "go" ErrNotFound))),
        built.2).
Proof.
  intros h p built.
  assert (built = (Err (ErrWrap "failed to build" (ExecError "go" ErrNotFound)),
                   built.2)) as Hb by (vm_compute; reflexivity).
  split; [exact Hb|].
  exact (proj1 (@buildCharm_stops_without_executable h p Scenario.world
                  built.2) _ Hb).
Defined.

Lemma buildCharm_bundle_witness :
  let h := Scenario.host Scenario.info true in
  let p := Scenario.request "/charms/trusty/wordpress" false in
  let r := @buildCharm h p Scenario.world in
  r = (Ok tt, r.2) /\ source p = false
  /\ @ReadCharmDir h (charmDir p) (fs r.2) = None.
Proof.
  intros h p r.
  assert (r = (Ok tt, r.2)) as Hr by (vm_compute; reflexivity).
  split; [exact Hr|]. split; [reflexivity|].
  destruct (@buildCharm_bundle h p Scenario.world r.2 Hr eq_refl)
    as (info & meta & data & _ & Hvalid & _).
  exact Hvalid.
Defined.

Lemma buildCharm_vendoring_bundle_witness :
  let h := Scenario.host Scenario.info true in
  let p := Scenario.request "/charms/trusty/wordpress" true in
  let r := @buildCharm h p Scenario.world in
  r = (Ok tt, r.2) /\ source p = true
  /\ OS.ReadFile (compilePath p) (fs r.2) = inr compileScript.
Proof.
  intros h p r.
  assert (r = (Ok tt, r.2)) as Hr by (vm_compute; reflexivity).
  split; [exact Hr|]. split; [reflexivity|].
  exact (proj1 (@buildCharm_vendoring_bundle h p Scenario.world r.2 Hr eq_refl)).
Defined.


Lemma fileRelations_order_independent_witness :
  let h := Scenario.host Scenario.info true in
  let db := ("db", Scenario.relation "db" RoleProvider "mysql") in
  let ring := ("ring", Scenario.relation "ring" RolePeer "gossip") in
  let base := withName (withRelations
                (Build_Meta "" "" "" false ∅ ∅ ∅ 1 0 [] "") ∅ ∅ ∅) "wp" in
  [db; ring] ≡ₚ [ring; db] /\ NoDup [db; ring].*1
  /\ @fileRelations h [ring; db] (withRelations base ∅ ∅ ∅)
     = @fileRelations h [db; ring] (withRelations base ∅ ∅ ∅).
Proof.
  intros h db ring base.
  assert ([db; ring] ≡ₚ [ring; db]) as Hperm by apply Permutation_swap.
  assert (NoDup [db; ring].*1) as Hnd by by_evaluation.
  split; [exact Hperm|]. split; [exact Hnd|].
  destruct (@fileRelations h [db; ring] (withRelations base ∅ ∅ ∅))
    as [meta|e|msg] eqn:E.
  - exact (proj1 (@fileRelations_order_independent h _ _ base Hperm Hnd)
             meta E).
  - vm_compute in E. discriminate E.
  - vm_compute in E. discriminate E.
Defined.

Lemma writeMeta_keeps_description_witness :
  let h := Scenario.host Scenario.info true in
  let b := Scenario.request "/charms/trusty/blog" false in
  let r := @writeMeta h b (Relations Scenario.info) Scenario.blogWorld in
  r = (Ok tt, r.2)
  /\ exists base meta,
       @ReadMeta h ("name: wp" +:+ nl) = inr base
       /\ Name meta = "wordpress" /\ Summary meta = Summary base.
Proof.
  intros h b r.
  assert (r = (Ok tt, r.2)) as Hr by (vm_compute; reflexivity).
  split; [exact Hr|].
  destruct (@writeMeta_keeps_description h b _ Scenario.blogWorld r.2 Hr)
    as (content & base & meta & data & Hc & Hb & _ & _ & Hname & Hdesc).
  vm_compute in Hc. injection Hc as <-.
  exists base, meta. split; [exact Hb|]. split; [exact Hname|].
  exact (proj1 Hdesc).
Defined.

